(** * flora2influx: the Mi Flora sensor protocol, device sessions and polling

    A shallow embedding of [device/device.go], [device/config.go] and the
    polling loop of [main.go], with the properties of the decoders, of
    [Discover], of [FetchReadings] and of one poll tick.

    Go values are modelled as follows: [[]byte] is [list Byte.byte], the
    unsigned and signed integers are [Z] with their conversions written out,
    [float64] is the binary64 primitive float of the kernel, [string] is
    [string] (a Go string is a byte sequence, here a sequence of 8-bit
    characters), a Go [map] is a [gmap], a nil-able pointer or error is an
    [option]. *)

From Stdlib Require Import ZArith QArith Qabs List Bool.
From Stdlib Require Import PrimFloat Uint63 SpecFloat FloatOps.
From stdpp Require Import gmap strings list.

Local Open Scope Z_scope.

(** * The program

    Part one: the Go code, function by function. *)

(** ** Bytes and machine integers *)

Abbreviation byte := Byte.byte.

(** The value of a byte as an unsigned integer ([uint8(b)], [uint16(b)]). *)
Definition byte_val (b : byte) : Z := Z.of_N (Byte.to_N b).

(** [int16(u)] for [u : uint16]: the same sixteen bits read in two's complement. *)
Definition int16_of_uint16 (u : Z) : Z := (u + 32768) mod 65536 - 32768.

(** [float64(t)] for [t : int16]. Every 16-bit integer is a binary64 value, so
    the conversion is exact; the primitive conversion takes an unsigned
    machine integer, hence the sign is applied afterwards. *)
Definition float64_of_int16 (t : Z) : float :=
  if t <? 0 then PrimFloat.opp (PrimFloat.of_uint63 (Uint63.of_Z (- t)))
  else PrimFloat.of_uint63 (Uint63.of_Z t).

(** The Go errors that the modelled code creates or receives. [EOF] and
    [ErrUnexpectedEOF] are those of package [io]; [TransportError] is an error
    value handed over by the Bluetooth library, kept as its message;
    [Wrapped] is [errors.Wrap]; the next three are the [fmt.Errorf] values of
    [FetchReadings]. [MalformedPayload] is the decode error that the
    specification names: no code path of the source creates it. *)
Inductive error : Type :=
  | EOF
  | ErrUnexpectedEOF
  | TransportError (msg : string)
  | Wrapped (cause : error) (msg : string)
  | NoFirmwareCharacteristic
  | RealtimeSwitchNotFound
  | NoReadingsCharacteristic
  | MalformedPayload.

(** ** Package [bytes]: the read side of [bytes.Buffer] *)

Module bytes.

(** A buffer is its unread portion [b.buf[b.off:]]. *)
Definition Buffer : Type := list byte.

Definition NewBuffer (data : list byte) : Buffer := data.

(** [b.Read(p)] with [len(p) = n]: copies what is there, up to [n] bytes, and
    advances past it; on an empty buffer it reports [io.EOF] (for [n > 0]). *)
Definition Read (n : nat) (b : Buffer) : list byte * option error * Buffer :=
  match b, n with
  | [], S _ => ([], Some EOF, [])
  | _, _ => (firstn n b, None, skipn n b)
  end.

(** [b.Next(n)]: the next [n] bytes, or fewer when the buffer is shorter. *)
Definition Next (n : nat) (b : Buffer) : list byte * Buffer :=
  (firstn n b, skipn n b).

(** [b.String()]: the unread portion as a string. *)
Definition Buffer_String (b : Buffer) : string := String.string_of_list_byte b.

End bytes.

(** ** Package [io]: [ReadFull] over a buffer *)

Module io.

(** [io.ReadAtLeast(r, buf, min)] with [len(buf) = min = n]: the loop
    [for n < min && err == nil] calls [Read] on what is still missing. A
    buffer delivers everything it has in one call, so two rounds always
    suffice; [fuel] bounds the loop. *)
Fixpoint ReadAtLeast_loop (fuel : nat) (missing : nat) (got : list byte)
    (b : bytes.Buffer) : list byte * option error * bytes.Buffer :=
  match missing, fuel with
  | O, _ => (got, None, b)
  | _, O => (got, None, b)
  | _, S fuel' =>
      let '(chunk, err, b') := bytes.Read missing b in
      match err with
      | Some e => (got ++ chunk, Some e, b')
      | None => ReadAtLeast_loop fuel' (missing - length chunk) (got ++ chunk) b'
      end
  end.

(** [io.ReadFull(r, buf)]: all [n] bytes, or an error: [EOF] when nothing was
    read, [ErrUnexpectedEOF] when the input ended part-way. *)
Definition ReadFull (n : nat) (b : bytes.Buffer) : list byte * option error * bytes.Buffer :=
  let '(got, err, b') := ReadAtLeast_loop (S (S n)) n [] b in
  if (n <=? length got)%nat then (got, None, b')
  else match got, err with
       | _ :: _, Some EOF => (got, Some ErrUnexpectedEOF, b')
       | _, _ => (got, err, b')
       end.

End io.

(** ** Package [encoding/binary]: [Read] with [binary.LittleEndian] *)

Module binary.

(** [LittleEndian.Uint16(b) = uint16(b[0]) | uint16(b[1])<<8]. [Read] only
    calls it on a slice of two bytes. *)
Definition LittleEndian_Uint16 (bs : list byte) : Z :=
  match bs with
  | b0 :: b1 :: _ => Z.lor (byte_val b0) (Z.shiftl (byte_val b1) 8)
  | _ => 0
  end.

(** [binary.Read(r, order, &v)], the fast path for fixed-size integers: it
    reads [size] bytes with [io.ReadFull] and, when that fails, returns the
    error and leaves [v] as it was. The result is the new content of [v], the
    error, and the buffer after the call. *)
Definition Read (size : nat) (conv : list byte -> Z) (b : bytes.Buffer) (v : Z)
    : Z * option error * bytes.Buffer :=
  let '(bs, err, b') := io.ReadFull size b in
  match err with
  | Some e => (v, Some e, b')
  | None => (conv bs, None, b')
  end.

Definition Read_uint8 : bytes.Buffer -> Z -> Z * option error * bytes.Buffer :=
  Read 1 (fun bs => match bs with b0 :: _ => byte_val b0 | [] => 0 end).

Definition Read_uint16 : bytes.Buffer -> Z -> Z * option error * bytes.Buffer :=
  Read 2 LittleEndian_Uint16.

Definition Read_int16 : bytes.Buffer -> Z -> Z * option error * bytes.Buffer :=
  Read 2 (fun bs => int16_of_uint16 (LittleEndian_Uint16 bs)).

End binary.

(** ** [Readings] and the two decoders *)

(** [type Readings struct]. *)
Record Readings : Type := mkReadings {
  FirmwareVersion : string;
  BatteryLevel : Z;       (* uint8 *)
  Temperature : float;    (* float64 *)
  Moisture : Z;           (* byte *)
  Light : Z;              (* uint16 *)
  Conductivity : Z        (* uint16 *)
}.

(** [&Readings{}]: every field at its zero value. *)
Definition Readings_zero : Readings :=
  {| FirmwareVersion := ""; BatteryLevel := 0; Temperature := 0%float;
     Moisture := 0; Light := 0; Conductivity := 0 |}.

(** Assignments [rd.Field = v] through the pointer [rd]. *)
Definition set_FirmwareVersion (v : string) (rd : Readings) : Readings :=
  mkReadings v (BatteryLevel rd) (Temperature rd) (Moisture rd) (Light rd) (Conductivity rd).
Definition set_BatteryLevel (v : Z) (rd : Readings) : Readings :=
  mkReadings (FirmwareVersion rd) v (Temperature rd) (Moisture rd) (Light rd) (Conductivity rd).
Definition set_Temperature (v : float) (rd : Readings) : Readings :=
  mkReadings (FirmwareVersion rd) (BatteryLevel rd) v (Moisture rd) (Light rd) (Conductivity rd).
Definition set_Moisture (v : Z) (rd : Readings) : Readings :=
  mkReadings (FirmwareVersion rd) (BatteryLevel rd) (Temperature rd) v (Light rd) (Conductivity rd).
Definition set_Light (v : Z) (rd : Readings) : Readings :=
  mkReadings (FirmwareVersion rd) (BatteryLevel rd) (Temperature rd) (Moisture rd) v (Conductivity rd).
Definition set_Conductivity (v : Z) (rd : Readings) : Readings :=
  mkReadings (FirmwareVersion rd) (BatteryLevel rd) (Temperature rd) (Moisture rd) (Light rd) v.

(** [func decodeFirmwareData(data []byte, rd *Readings)]. The function has no
    result: the error of [binary.Read] is dropped, as in the source. *)
Definition decodeFirmwareData (data : list byte) (rd : Readings) : Readings :=
  let buf := bytes.NewBuffer data in
  let batt := 0 in
  let '(batt, _, buf) := binary.Read_uint8 buf batt in
  let rd := set_BatteryLevel batt rd in
  let '(_, buf) := bytes.Next 1 buf in
  (* The rest is the version string *)
  set_FirmwareVersion (bytes.Buffer_String buf) rd.

(** [func decodeSensorData(data []byte, rd *Readings)].
    Data format: [TT TT ?? LL LL ?? ?? MM CC CC]. Again every error of
    [binary.Read] is dropped and the variable keeps its zero value. *)
Definition decodeSensorData (data : list byte) (rd : Readings) : Readings :=
  let p := bytes.NewBuffer data in
  let t := 0 in
  let m := 0 in
  let l := 0 in
  let c := 0 in
  let '(t, _, p) := binary.Read_int16 p t in
  let rd := set_Temperature (float64_of_int16 t / 10)%float rd in
  let '(_, p) := bytes.Next 1 p in
  let '(l, _, p) := binary.Read_uint16 p l in
  let rd := set_Light l rd in
  let '(_, p) := bytes.Next 2 p in
  let '(m, _, p) := binary.Read_uint8 p m in
  let rd := set_Moisture m rd in
  let '(c, _, p) := binary.Read_uint16 p c in
  set_Conductivity c rd.

(** ** The Bluetooth library ([gatt]) as the program uses it *)

(** The pair [(v, err)] that a library call returns; the program looks at [v]
    only when [err] is nil. The error is opaque to the program and kept as its
    message. *)
Inductive result (T : Type) : Type :=
  | Ok (v : T)
  | Err (msg : string).
Arguments Ok {T} v.
Arguments Err {T} msg.

(** [*gatt.Characteristic] and [*gatt.Service], with the accessors used. *)
Record Characteristic : Type := mkCharacteristic { VHandle : Z }.
Record Service : Type := mkService { UUID : string; Handle : Z }.

(** [gatt.Peripheral]. The radio and the devices behind it are a state [St]
    that every call may read and change. [Connect] stands for
    [Device().Connect(p)] together with the library's callbacks: [None] means
    that the library never reports the connection, so that the caller waits on
    its channel for ever. *)
Record Peripheral (St : Type) : Type := mkPeripheral {
  ID : string;
  Name : string;
  Connect : St -> option St;
  DiscoverServices : St -> result (list Service) * St;
  DiscoverCharacteristics : Service -> St -> result (list Characteristic) * St;
  ReadCharacteristic : Characteristic -> St -> result (list byte) * St;
  WriteCharacteristic : Characteristic -> list byte -> bool -> St -> option string * St;
  ReadLongCharacteristic : Characteristic -> St -> result (list byte) * St;
  CancelConnection : St -> St
}.
Arguments ID {St} _.
Arguments Name {St} _.
Arguments Connect {St} _ _.
Arguments DiscoverServices {St} _ _.
Arguments DiscoverCharacteristics {St} _ _ _.
Arguments ReadCharacteristic {St} _ _ _.
Arguments WriteCharacteristic {St} _ _ _ _ _.
Arguments ReadLongCharacteristic {St} _ _ _.
Arguments CancelConnection {St} _ _.

(** The calls that a session makes on its peripheral, in order, with what the
    reads returned. *)
Inductive Call : Type :=
  | CallDiscoverServices
  | CallDiscoverCharacteristics (service : Service)
  | CallReadCharacteristic (c : Characteristic) (r : result (list byte))
  | CallWriteCharacteristic (c : Characteristic) (value : list byte) (noRsp : bool)
  | CallReadLongCharacteristic (c : Characteristic) (r : result (list byte))
  | CallCancelConnection.

(** ** Constants of [device.go] *)

Definition fldDevice : string := "device".
Definition fldAlias : string := "alias".
Definition vHandleRealtimeData : Z := 0x33.
Definition vHandleFirmwareAndBattery : Z := 0x38.
Definition vHandleSensorReadings : Z := 0x35.

(** [floraDeviceNames]: the names a Mi Flora device is known to identify with. *)
Definition floraDeviceNames : gmap string Z :=
  <["Flower care" := 1]> (<["Flower mate" := 1]> ∅).

(** [floraServiceUUID], as the hexadecimal text it is parsed from. *)
Definition floraServiceUUID : string := "0000120400001000800000805f9b34fb".

(** [a > b] on Go strings: byte-wise lexicographic order. *)
Definition string_gt (a b : string) : bool := String.ltb b a.

(** ** [Config], [ConfigMap] and [Device] *)

(** [type Config struct] of [device/config.go]. *)
Record Config : Type := mkConfig {
  Alias : string;
  Ignore : bool
}.

(** [*logrus.Entry]: the fields attached to a logger. *)
Definition LoggerEntry : Type := gmap string string.

Definition WithField (key value : string) (logger : LoggerEntry) : LoggerEntry :=
  <[key := value]> logger.

(** [type Device struct]. *)
Record Device (St : Type) : Type := mkDevice {
  peripheral : Peripheral St;
  Logger : LoggerEntry;
  DeviceAlias : string
}.
Arguments mkDevice {St} _ _ _.
Arguments peripheral {St} _.
Arguments Logger {St} _.
Arguments DeviceAlias {St} _.

(** [func (dev *Device) GetID() string]. *)
Definition GetID {St : Type} (dev : Device St) : string := ID (peripheral dev).

(** [func (dev *Device) GetName() string]. *)
Definition GetName {St : Type} (dev : Device St) : string :=
  if String.eqb (DeviceAlias dev) "" then GetID dev else DeviceAlias dev.

(** ** [Discover] *)

(** The handler registered with [gatt.PeripheralDiscovered]: one call per
    advertisement, [out] being the slice that [Discover] returns. *)
Definition onPeripheralDiscovered {St : Type} (confMap : gmap string Config)
    (logger : LoggerEntry) (out : list (Device St)) (p : Peripheral St)
    : list (Device St) :=
  match floraDeviceNames !! Name p with
  | Some _ =>
      let dev := mkDevice p (WithField fldDevice (ID p) logger) "" in
      match confMap !! ID p with
      | Some conf =>
          if Ignore conf then out (* Device will be ignored: return *)
          else
            let dev :=
              if String.eqb (Alias conf) "" then dev
              else mkDevice p (WithField fldAlias (Alias conf) (Logger dev)) (Alias conf) in
            out ++ [dev]
      | None => out ++ [dev]
      end
  | None => out
  end.

(** [func Discover(timeout, confMap, logger) ([]*Device, error)].
    [newDevice] is the outcome of [gatt.NewDevice]; [scan timeout] lists the
    peripherals whose advertisements the library reports between the start of
    the scan and [StopScanning], which is called after [timeout]. On a failed
    [gatt.NewDevice] the source returns the wrapped error alone. *)
Definition Discover {St : Type} (newDevice : option string)
    (scan : Z -> list (Peripheral St)) (timeout : Z)
    (confMap : gmap string Config) (logger : LoggerEntry)
    : list (Device St) * option error :=
  match newDevice with
  | Some msg => ([], Some (Wrapped (TransportError msg) "Failed to create a new GATT device"))
  | None => (fold_left (onPeripheralDiscovered confMap logger) (scan timeout) [], None)
  end.

(** ** [FetchReadings] *)

(** The body of the [PeripheralConnected] handler is a computation over the
    state of the radio and the list of calls made so far. It ends either at
    its last statement, with a value, or at one of its [return] statements,
    with the value that [errOut] has at that point. *)
Definition Session (St A : Type) : Type :=
  St * list Call -> (A + option error) * (St * list Call).

#[export] Instance Session_ret {St : Type} : MRet (Session St) :=
  fun A (a : A) w => (inl a, w).

#[export] Instance Session_bind {St : Type} : MBind (Session St) :=
  fun A B (k : A -> Session St B) (m : Session St A) w =>
    match m w with
    | (inl a, w') => k a w'
    | (inr errOut, w') => (inr errOut, w')
    end.

(** [errOut = e; return] (or a bare [return] for [None]). *)
Definition exit {St A : Type} (errOut : option error) : Session St A :=
  fun w => (inr errOut, w).

Definition callDiscoverServices {St : Type} (p : Peripheral St)
    : Session St (result (list Service)) :=
  fun '(s, calls) =>
    let '(r, s') := DiscoverServices p s in
    (inl r, (s', calls ++ [CallDiscoverServices])).

Definition callDiscoverCharacteristics {St : Type} (p : Peripheral St)
    (service : Service) : Session St (result (list Characteristic)) :=
  fun '(s, calls) =>
    let '(r, s') := DiscoverCharacteristics p service s in
    (inl r, (s', calls ++ [CallDiscoverCharacteristics service])).

Definition callReadCharacteristic {St : Type} (p : Peripheral St)
    (c : Characteristic) : Session St (result (list byte)) :=
  fun '(s, calls) =>
    let '(r, s') := ReadCharacteristic p c s in
    (inl r, (s', calls ++ [CallReadCharacteristic c r])).

Definition callWriteCharacteristic {St : Type} (p : Peripheral St)
    (c : Characteristic) (value : list byte) (noRsp : bool)
    : Session St (option string) :=
  fun '(s, calls) =>
    let '(r, s') := WriteCharacteristic p c value noRsp s in
    (inl r, (s', calls ++ [CallWriteCharacteristic c value noRsp])).

Definition callReadLongCharacteristic {St : Type} (p : Peripheral St)
    (c : Characteristic) : Session St (result (list byte)) :=
  fun '(s, calls) =>
    let '(r, s') := ReadLongCharacteristic p c s in
    (inl r, (s', calls ++ [CallReadLongCharacteristic c r])).

(** The three characteristic pointers of the handler, nil at first. *)
Record Handles : Type := mkHandles {
  cFirmware : option Characteristic;
  cReadings : option Characteristic;
  cRealtimeData : option Characteristic
}.

Definition noHandles : Handles := mkHandles None None None.

(** One round of [switch characteristic.VHandle()]. *)
Definition selectCharacteristic (h : Handles) (characteristic : Characteristic) : Handles :=
  if VHandle characteristic =? vHandleRealtimeData then
    mkHandles (cFirmware h) (cReadings h) (Some characteristic)
  else if VHandle characteristic =? vHandleSensorReadings then
    mkHandles (cFirmware h) (Some characteristic) (cRealtimeData h)
  else if VHandle characteristic =? vHandleFirmwareAndBattery then
    mkHandles (Some characteristic) (cReadings h) (cRealtimeData h)
  else h.

(** [for _, service := range services]. *)
Fixpoint discoverLoop {St : Type} (p : Peripheral St) (services : list Service)
    (h : Handles) : Session St Handles :=
  match services with
  | [] => mret h
  | service :: rest =>
      if String.eqb (UUID service) floraServiceUUID then
        r ← callDiscoverCharacteristics p service;
        match r with
        | Err msg => exit (Some (TransportError msg))
        | Ok characteristics =>
            discoverLoop p rest (fold_left selectCharacteristic characteristics h)
        end
      else discoverLoop p rest h
  end.

(** The value written to the realtime data switch. *)
Definition realtimeCommand : list byte := [Byte.xa0; Byte.xaf].

(** For firmware later than 2.6.6: enable realtime data before the read. *)
Definition enableRealtime {St : Type} (p : Peripheral St) (h : Handles)
    (rd : Readings) : Session St unit :=
  if string_gt (FirmwareVersion rd) "2.6.6" then
    match cRealtimeData h with
    | None => exit (Some RealtimeSwitchNotFound)
    | Some c =>
        r ← callWriteCharacteristic p c realtimeCommand false;
        match r with
        | Some msg => exit (Some (TransportError msg))
        | None => mret tt
        end
    end
  else mret tt.

(** The body of the handler; its value is what is assigned to [out]. *)
Definition onPeripheralConnected {St : Type} (p : Peripheral St) : Session St Readings :=
  r ← callDiscoverServices p;
  match r with
  | Err _ => exit None (* logged; errOut is not set *)
  | Ok services =>
      h ← discoverLoop p services noHandles;
      match cFirmware h with
      | None => exit (Some NoFirmwareCharacteristic)
      | Some cF =>
          let rd := Readings_zero in
          r ← callReadCharacteristic p cF;
          match r with
          | Err msg => exit (Some (TransportError msg))
          | Ok data =>
              let rd := decodeFirmwareData data rd in
              enableRealtime p h rd;;
              match cReadings h with
              | None => exit (Some NoReadingsCharacteristic)
              | Some cR =>
                  r ← callReadLongCharacteristic p cR;
                  match r with
                  | Err msg => exit (Some (TransportError msg))
                  | Ok data => mret (decodeSensorData data rd)
                  end
              end
          end
      end
  end.

(** What one [FetchReadings] leaves behind: the two results, the state of the
    radio and the calls made. *)
Record Fetched (St : Type) : Type := mkFetched {
  out : option Readings;
  errOut : option error;
  after : St;
  calls : list Call
}.
Arguments mkFetched {St} _ _ _ _.
Arguments out {St} _.
Arguments errOut {St} _.
Arguments after {St} _.
Arguments calls {St} _.

(** [FetchReadings], a method of [Device] returning a [Readings] pointer and an
    error: connect, run the
    handler, cancel the connection (deferred in the handler), and return once
    the disconnection is reported. [None] when the connection is never
    reported: the call then does not return. *)
Definition FetchReadings {St : Type} (dev : Device St) (s : St) : option (Fetched St) :=
  let p := peripheral dev in
  match Connect p s with
  | None => None
  | Some s0 =>
      let '(r, (s1, made)) := onPeripheralConnected p (s0, []) in
      let s2 := CancelConnection p s1 in
      let made := made ++ [CallCancelConnection] in
      Some match r with
           | inl rd => mkFetched (Some rd) None s2 made
           | inr e => mkFetched None e s2 made
           end
  end.

(** ** One poll tick of [discoverAndRun] *)

(** What a tick does besides the sessions themselves. [SinkWrite] is the write
    of one point to the time-series store, with its tags and fields. *)
Inductive TickEvent : Type :=
  | Polled (id : string) (made : list Call)
  | LoggedError (id : string) (err : error)
  | LoggedReadings (id : string) (readings : option Readings)
  | SinkWrite (tags : gmap string string) (fields : Readings).

(** [for _, device := range devices] of [discoverAndRun]: the events of the
    tick and the state after it, [None] when a fetch never returned. *)
Fixpoint pollTick {St : Type} (devices : list (Device St)) (s : St)
    : list TickEvent * option St :=
  match devices with
  | [] => ([], Some s)
  | device :: rest =>
      match FetchReadings device s with
      | None => ([], None)
      | Some f =>
          let polled := Polled (GetID device) (calls f) in
          match errOut f with
          | Some err =>
              (* Failed to fetch readings from device: continue *)
              let '(evs, s') := pollTick rest (after f) in
              (polled :: LoggedError (GetID device) err :: evs, s')
          | None =>
              (* Received readings; the write to the store is commented out *)
              let '(evs, s') := pollTick rest (after f) in
              (polled :: LoggedReadings (GetID device) (out f) :: evs, s')
          end
      end
  end.

(** ** [ToInfluxValues] *)

Definition keyBatteryLevel : string := "battery".
Definition keyTemperature : string := "temperature".
Definition keyMoisture : string := "moisture".
Definition keyConductivity : string := "conductivity".
Definition keyLight : string := "light".

(** A value of type [interface{}], with the dynamic types that occur here
    ([byte] is [uint8]). *)
Inductive Value : Type :=
  | Uint8Value (v : Z)
  | Uint16Value (v : Z)
  | Float64Value (v : float).

(** [func (r *Readings) ToInfluxValues() map[string]interface{}]. *)
Definition ToInfluxValues (r : Readings) : gmap string Value :=
  <[keyBatteryLevel := Uint8Value (BatteryLevel r)]>
    (<[keyTemperature := Float64Value (Temperature r)]>
       (<[keyMoisture := Uint8Value (Moisture r)]>
          (<[keyConductivity := Uint16Value (Conductivity r)]>
             (<[keyLight := Uint16Value (Light r)]> ∅)))).

(** ** The configuration ([config.go] of package [main]) *)

(** [time.Duration] is a number of nanoseconds. *)
Definition Second : Z := 1000000000.
Definition Minute : Z := 60 * Second.
Definition Hour : Z := 60 * Minute.

Record InfluxConfig : Type := mkInfluxConfig {
  Addr : string;
  Username : string;
  Password : string;
  Database : string;
  MeasurementName : string
}.

Record CollectionConfig : Type := mkCollectionConfig {
  DiscoveryInterval : Z;
  DiscoveryTimeout : Z;
  DiscoveryCooldown : Z;
  Interval : Z
}.

Record Configuration : Type := mkConfiguration {
  Influx : InfluxConfig;
  Collection : CollectionConfig;
  Devices : gmap string Config
}.

(** The errors of [Validate]: one per [fmt.Errorf], with the durations that
    the message prints. *)
Inductive ValidationError : Type :=
  | NoConfigurationProvided
  | DiscoveryIntervalTooLow (printed : Z)
  | CollectionIntervalTooLow (printed : Z)
  | CollectionIntervalAboveDiscoveryInterval (interval discoveryInterval : Z)
  | DiscoveryCooldownTooLow (printed : Z)
  | DiscoveryTimeoutTooLow (printed : Z).

(** [func (c *Configuration) Validate() error]; the receiver may be nil. The
    last message prints [c.Collection.Interval], as in the source. *)
Definition Validate (c : option Configuration) : option ValidationError :=
  match c with
  | None => Some NoConfigurationProvided
  | Some c =>
      if DiscoveryInterval (Collection c) <? Minute then
        Some (DiscoveryIntervalTooLow (DiscoveryInterval (Collection c)))
      else if Interval (Collection c) <? Minute then
        Some (CollectionIntervalTooLow (Interval (Collection c)))
      else if Interval (Collection c) >? DiscoveryInterval (Collection c) then
        Some (CollectionIntervalAboveDiscoveryInterval
                (Interval (Collection c)) (DiscoveryInterval (Collection c)))
      else if DiscoveryCooldown (Collection c) <? Second then
        Some (DiscoveryCooldownTooLow (DiscoveryCooldown (Collection c)))
      else if DiscoveryTimeout (Collection c) <? Second * 5 then
        Some (DiscoveryTimeoutTooLow (Interval (Collection c)))
      else None
  end.

(** [func getDefaultConfig() *Configuration], as in the copy of [config.go]
    that uses [device.ConfigMap]; the other copy differs in the measurement
    name only. A map that is not set is nil, which reads as the empty map. *)
Definition getDefaultConfig : Configuration :=
  {| Influx := {| Addr := "http://localhost:8086";
                  Username := "";
                  Password := "";
                  Database := "flora";
                  MeasurementName := "PlantSensors" |};
     Collection := {| DiscoveryInterval := Hour;
                      DiscoveryCooldown := Second * 30;
                      DiscoveryTimeout := Second * 10;
                      Interval := Minute |};
     Devices := ∅ |}.

(** The errors of [loadConfigFile]: [errors.Wrap] of the cause with one of
    three messages. *)
Inductive LoadError : Type :=
  | CannotOpenConfigurationFile (cause : string)
  | FailedToLoadConfigurationFile (cause : string)
  | ErrorsFoundInTheConfiguration (cause : ValidationError).

(** [loadConfigFile(filename string)], returning a [Configuration] pointer
    and an error.
    [Open] is [os.Open]; [Decode f conf] is [yaml.NewDecoder(f).Decode(conf)],
    which fills the configuration it is given. *)
Definition loadConfigFile {File : Type} (Open : string -> result File)
    (Decode : File -> Configuration -> result Configuration) (filename : string)
    : option Configuration * option LoadError :=
  let conf := getDefaultConfig in
  match Open filename with
  | Err msg => (None, Some (CannotOpenConfigurationFile msg))
  | Ok f =>
      match Decode f conf with
      | Err msg => (None, Some (FailedToLoadConfigurationFile msg))
      | Ok conf =>
          match Validate (Some conf) with
          | Some err => (None, Some (ErrorsFoundInTheConfiguration err))
          | None => (Some conf, None)
          end
      end
  end.

(** ** [discoverAndRun] *)

(** Which case of the [select] at the end of a round is taken. *)
Inductive Fired : Type :=
  | ReloadTimerFired
  | TickTimerFired.

(** What [discoverAndRun] does to [errChan]. *)
Inductive ErrChan : Type :=
  | ErrSent (err : error)
  | ErrChanClosed.

(** The endless [for] of [discoverAndRun], for as long as [schedule] tells
    which timer fires: the events of each round, what happened to the channel
    ([None] while the function has not returned) and the state of the radio
    ([None] when a fetch never returned). *)
Fixpoint pollLoop {St : Type} (devices : list (Device St)) (schedule : list Fired)
    (s : St) {struct schedule}
    : list (list TickEvent) * option ErrChan * option St :=
  let '(evs, r) := pollTick devices s in
  match r with
  | None => ([evs], None, None)
  | Some s' =>
      match schedule with
      | [] => ([evs], None, Some s')
      | ReloadTimerFired :: _ =>
          (* tickTimer.Stop(); close(errChan); return *)
          ([evs], Some ErrChanClosed, Some s')
      | TickTimerFired :: rest =>
          let '(rounds, c, s'') := pollLoop devices rest s' in
          (evs :: rounds, c, s'')
      end
  end.

(** [func discoverAndRun(errChan, config, influxClient, logger)];
    [discovered] is what the call of [device.Discover] returned. *)
Definition discoverAndRun {St : Type} (discovered : list (Device St) * option error)
    (schedule : list Fired) (s : St)
    : list (list TickEvent) * option ErrChan * option St :=
  match snd discovered with
  | Some err => ([], Some (ErrSent err), Some s)
  | None => pollLoop (fst discovered) schedule s
  end.

(** * Layouts, fixtures and the vocabulary of the properties *)

(** ** The record layouts, by byte offset

    The layout that the comments of the source and the specification give,
    written independently of the buffer: a field is present when all its bytes
    are. [u16le_at] and [i16le_at] read two bytes, least significant first. *)

Definition u8_at (i : nat) (data : list byte) : option Z :=
  byte_val <$> data !! i.

Definition u16le (lo hi : byte) : Z := byte_val lo + 256 * byte_val hi.

Definition i16le (lo hi : byte) : Z :=
  let u := u16le lo hi in if u <? 32768 then u else u - 65536.

Definition u16le_at (i : nat) (data : list byte) : option Z :=
  match data !! i, data !! S i with
  | Some lo, Some hi => Some (u16le lo hi)
  | _, _ => None
  end.

Definition i16le_at (i : nat) (data : list byte) : option Z :=
  match data !! i, data !! S i with
  | Some lo, Some hi => Some (i16le lo hi)
  | _, _ => None
  end.

(** The fixtures of the specification. *)
Definition firmware_fixture : list byte :=
  [Byte.x40; Byte.x00; Byte.x32; Byte.x2e; Byte.x36; Byte.x2e; Byte.x36].

Definition sensor_fixture : list byte :=
  [Byte.xce; Byte.x00; Byte.x00; Byte.x90; Byte.x01; Byte.x00; Byte.x00;
   Byte.x28; Byte.xe8; Byte.x00].

(** Every byte, in increasing order. *)
Definition all_bytes : list byte :=
  omap (fun n => Byte.of_nat n) (seq 0 256).


(** ** The temperature as a binary64 value *)

(** The rational number that a finite binary64 value stands for. *)
Definition float64_to_Q (f : float) : Q :=
  match Prim2SF f with
  | S754_finite s m e =>
      ((if s then -1 else 1) * inject_Z (Z.pos m) * Qpower 2 e)%Q
  | _ => 0%Q
  end.

(** [int64(f)]: a finite value truncated towards zero. *)
Definition float64_trunc (f : float) : option Z :=
  match Prim2SF f with
  | S754_zero _ => Some 0
  | S754_finite s m e =>
      let mag := if 0 <=? e then Z.pos m * 2 ^ e else Z.pos m / 2 ^ (- e) in
      Some (if s then - mag else mag)
  | _ => None
  end.

Definition temperature_of (lo hi : byte) : float :=
  (float64_of_int16 (i16le lo hi) / 10)%float.


(** The temperature of the sensor fixture as the specification writes it:
    the binary64 value nearest to 20.6, which is what the literal denotes. *)
#[warnings="-inexact-float"]
Definition temperature_fixture : float := 20.6%float.

(** ** Re-encoding the numeric fields

    The inverse direction, which the source does not have; it follows the
    wording of the specification: light, moisture and conductivity verbatim,
    the temperature multiplied back by 10 as a signed 16-bit integer, every
    integer least significant byte first. *)

Definition byte_of_Z (z : Z) : byte :=
  default Byte.x00 (Byte.of_N (Z.to_N (z mod 256))).

(** [binary.LittleEndian.PutUint16]. *)
Definition put_u16le (v : Z) : list byte := [byte_of_Z v; byte_of_Z (v / 256)].

(** The same for an [int16], through [uint16(v)]. *)
Definition put_i16le (v : Z) : list byte := put_u16le (v mod 65536).

Definition spec_reencode (rd : Readings) : option (list byte) :=
  t ← float64_trunc (Temperature rd * 10)%float;
  Some (put_i16le t ++ put_u16le (Light rd) ++ [byte_of_Z (Moisture rd)]
          ++ put_u16le (Conductivity rd)).

(** The bytes of a sensor payload outside the reserved positions 2, 5 and 6. *)
Definition non_reserved (data : list byte) : list byte :=
  omap (fun i => data !! i) [0; 1; 3; 4; 7; 8; 9]%nat.

(** ** The shape of a session, as a relation

    What a [FetchReadings] that returns can have done: the calls it made, the
    [Readings] it returns and its error. The relation is stated on its own and
    proved below to hold of every run of [FetchReadings]. *)

Definition is_discovery (c : Call) : bool :=
  match c with
  | CallDiscoverServices | CallDiscoverCharacteristics _ => true
  | _ => false
  end.

Definition is_write (c : Call) : bool :=
  match c with CallWriteCharacteristic _ _ _ => true | _ => false end.

Definition is_sensor_read (c : Call) : bool :=
  match c with CallReadLongCharacteristic _ _ => true | _ => false end.

Definition is_cancel (c : Call) : bool :=
  match c with CallCancelConnection => true | _ => false end.

(** The firmware gate for version [v]: the calls it makes, and the error it
    ends the session with, if any. *)
Inductive Gate (v : string) : list Call -> option error -> Prop :=
  | Gate_old :
      string_gt v "2.6.6" = false -> Gate v [] None
  | Gate_no_switch :
      string_gt v "2.6.6" = true -> Gate v [] (Some RealtimeSwitchNotFound)
  | Gate_write_failed c msg :
      string_gt v "2.6.6" = true ->
      Gate v [CallWriteCharacteristic c realtimeCommand false] (Some (TransportError msg))
  | Gate_written c :
      string_gt v "2.6.6" = true ->
      Gate v [CallWriteCharacteristic c realtimeCommand false] None.

(** The sensor read on top of the record [rd] that holds the firmware data. *)
Inductive SensorRead (rd : Readings) : list Call -> option Readings -> option error -> Prop :=
  | SensorRead_no_characteristic :
      SensorRead rd [] None (Some NoReadingsCharacteristic)
  | SensorRead_failed c msg :
      SensorRead rd [CallReadLongCharacteristic c (Err msg)] None (Some (TransportError msg))
  | SensorRead_done c data :
      SensorRead rd [CallReadLongCharacteristic c (Ok data)]
        (Some (decodeSensorData data rd)) None.

Inductive Outcome : list Call -> option Readings -> option error -> Prop :=
  | Outcome_services_failed :
      Outcome [CallDiscoverServices; CallCancelConnection] None None
  | Outcome_characteristics_failed disc msg :
      Forall (fun c => is_discovery c = true) disc ->
      Outcome (disc ++ [CallCancelConnection]) None (Some (TransportError msg))
  | Outcome_no_firmware_characteristic disc :
      Forall (fun c => is_discovery c = true) disc ->
      Outcome (disc ++ [CallCancelConnection]) None (Some NoFirmwareCharacteristic)
  | Outcome_firmware_read_failed disc c msg :
      Forall (fun c => is_discovery c = true) disc ->
      Outcome (disc ++ [CallReadCharacteristic c (Err msg); CallCancelConnection])
        None (Some (TransportError msg))
  | Outcome_gate_closed disc c data w e :
      Forall (fun c => is_discovery c = true) disc ->
      Gate (FirmwareVersion (decodeFirmwareData data Readings_zero)) w (Some e) ->
      Outcome (disc ++ CallReadCharacteristic c (Ok data) :: w ++ [CallCancelConnection])
        None (Some e)
  | Outcome_gate_passed disc c data w tail o e :
      Forall (fun c => is_discovery c = true) disc ->
      Gate (FirmwareVersion (decodeFirmwareData data Readings_zero)) w None ->
      SensorRead (decodeFirmwareData data Readings_zero) tail o e ->
      Outcome (disc ++ CallReadCharacteristic c (Ok data) :: w ++ tail ++ [CallCancelConnection])
        o e.

(** The identifiers of the devices polled in a tick, in order. *)
Definition polled_ids (evs : list TickEvent) : list string :=
  omap (fun ev => match ev with Polled id _ => Some id | _ => None end) evs.

(** The writes to the store made in a tick. *)
Definition sink_writes (evs : list TickEvent) : list TickEvent :=
  List.filter (fun ev => match ev with SinkWrite _ _ => true | _ => false end) evs.

(** ** Example peripherals

    Peripherals without state of their own ([St] is [unit]): they always
    connect, offer a generic service and the sensor service, and answer every
    read with a fixed payload. They serve as concrete inputs below. *)

Definition floraService : Service := mkService floraServiceUUID 1.
Definition chFirmware : Characteristic := mkCharacteristic vHandleFirmwareAndBattery.
Definition chReadings : Characteristic := mkCharacteristic vHandleSensorReadings.
Definition chRealtime : Characteristic := mkCharacteristic vHandleRealtimeData.

Definition examplePeripheral (name id : string) (characteristics : list Characteristic)
    (firmware sensor : list byte) : Peripheral unit :=
  {| ID := id;
     Name := name;
     Connect := fun s => Some s;
     DiscoverServices := fun s => (Ok [mkService "1800" 0; floraService], s);
     DiscoverCharacteristics := fun _ s => (Ok characteristics, s);
     ReadCharacteristic := fun _ s => (Ok firmware, s);
     WriteCharacteristic := fun _ _ _ s => (None, s);
     ReadLongCharacteristic := fun _ s => (Ok sensor, s);
     CancelConnection := fun s => s |}.

Definition exampleDevice (id : string) (characteristics : list Characteristic)
    (firmware sensor : list byte) : Device unit :=
  mkDevice (examplePeripheral "Flower care" id characteristics firmware sensor)
    (WithField fldDevice id ∅) "".

(** Battery 64, version "3.1.8". *)
Definition firmware_318 : list byte :=
  [Byte.x40; Byte.x00; Byte.x33; Byte.x2e; Byte.x31; Byte.x2e; Byte.x38].

(** A firmware payload of one byte and a sensor payload of nine. *)
Definition short_firmware : list byte := [Byte.x40].
Definition short_sensor : list byte := firstn 9 sensor_fixture.

(** The device of the fixtures, with firmware 2.6.6. *)
Definition dev_fixture : Device unit :=
  exampleDevice "C4:7C:8D:00:00:01" [chFirmware; chReadings; chRealtime]
    firmware_fixture sensor_fixture.

(** A device that answers both reads with short payloads. *)
Definition dev_short : Device unit :=
  exampleDevice "C4:7C:8D:00:00:02" [chFirmware; chReadings; chRealtime]
    short_firmware short_sensor.

(** A device whose sensor payload stops after the light field's first byte. *)
Definition dev_truncated : Device unit :=
  exampleDevice "C4:7C:8D:00:00:03" [chFirmware; chReadings; chRealtime]
    firmware_fixture (firstn 4 sensor_fixture).

(** Firmware 3.1.8 with and without the realtime data switch. *)
Definition dev_318 : Device unit :=
  exampleDevice "C4:7C:8D:00:00:04" [chFirmware; chReadings; chRealtime]
    firmware_318 sensor_fixture.

Definition dev_318_no_switch : Device unit :=
  exampleDevice "C4:7C:8D:00:00:05" [chFirmware; chReadings]
    firmware_318 sensor_fixture.

(** A configuration that ignores the second device and names the first. *)
Definition exampleConfMap : gmap string Config :=
  <["C4:7C:8D:00:00:02" := mkConfig "" true]>
    (<["C4:7C:8D:00:00:01" := mkConfig "basil" false]> ∅).

(** A scan in which three sensors and one other peripheral advertise. *)
Definition exampleScan (timeout : Z) : list (Peripheral unit) :=
  [peripheral dev_fixture; peripheral dev_short;
   examplePeripheral "Thermometer" "AA:BB:CC:00:00:09" [] [] [];
   peripheral dev_318].

(** The readings of the fixtures. *)
Definition readings_fixture : Readings :=
  {| FirmwareVersion := "2.6.6"; BatteryLevel := 64;
     Temperature := temperature_fixture;
     Moisture := 40; Light := 400; Conductivity := 232 |}.

(** What [FetchReadings] returns for the device of the fixtures. *)
Definition fetched_fixture : Fetched unit :=
  {| out := Some readings_fixture;
     errOut := None;
     after := tt;
     calls := [CallDiscoverServices;
               CallDiscoverCharacteristics floraService;
               CallReadCharacteristic chFirmware (Ok firmware_fixture);
               CallReadLongCharacteristic chReadings (Ok sensor_fixture);
               CallCancelConnection] |}.

(** The same for firmware 3.1.8, with and without the realtime data switch. *)
Definition fetched_318 : Fetched unit :=
  {| out := Some (set_FirmwareVersion "3.1.8" readings_fixture);
     errOut := None;
     after := tt;
     calls := [CallDiscoverServices;
               CallDiscoverCharacteristics floraService;
               CallReadCharacteristic chFirmware (Ok firmware_318);
               CallWriteCharacteristic chRealtime realtimeCommand false;
               CallReadLongCharacteristic chReadings (Ok sensor_fixture);
               CallCancelConnection] |}.

Definition fetched_318_no_switch : Fetched unit :=
  {| out := None;
     errOut := Some RealtimeSwitchNotFound;
     after := tt;
     calls := [CallDiscoverServices;
               CallDiscoverCharacteristics floraService;
               CallReadCharacteristic chFirmware (Ok firmware_318);
               CallCancelConnection] |}.

(** ** Vocabulary of the further properties *)

(** The bounds that a configuration has to keep. *)
Definition within_bounds (c : CollectionConfig) : Prop :=
  Minute <= DiscoveryInterval c
  /\ Minute <= Interval c <= DiscoveryInterval c
  /\ Second <= DiscoveryCooldown c
  /\ 5 * Second <= DiscoveryTimeout c.

(** The advertisements that lead to a device: a known name, and no
    configuration entry that says to ignore it. *)
Definition kept {St : Type} (confMap : gmap string Config) (p : Peripheral St) : bool :=
  match floraDeviceNames !! Name p with
  | Some _ =>
      match confMap !! ID p with
      | Some conf => negb (Ignore conf)
      | None => true
      end
  | None => false
  end.

(** The calls that address the sensor service and its three characteristics
    by their handles. *)
Definition addresses_sensor (c : Call) : Prop :=
  match c with
  | CallDiscoverServices | CallCancelConnection => True
  | CallDiscoverCharacteristics service => UUID service = floraServiceUUID
  | CallReadCharacteristic c _ => VHandle c = vHandleFirmwareAndBattery
  | CallWriteCharacteristic c value noRsp =>
      VHandle c = vHandleRealtimeData /\ value = realtimeCommand /\ noRsp = false
  | CallReadLongCharacteristic c _ => VHandle c = vHandleSensorReadings
  end.

(** The characteristic pointers refer to the handles they are named after. *)
Definition handles_match (h : Handles) : Prop :=
  (forall c, cFirmware h = Some c -> VHandle c = vHandleFirmwareAndBattery)
  /\ (forall c, cReadings h = Some c -> VHandle c = vHandleSensorReadings)
  /\ (forall c, cRealtimeData h = Some c -> VHandle c = vHandleRealtimeData).

(** The least and the greatest temperature that a 16-bit word gives. *)
Definition temperature_min : float := PrimFloat.div (float64_of_int16 (-32768)) 10%float.
Definition temperature_max : float := PrimFloat.div (float64_of_int16 32767) 10%float.

(** A peripheral on which the discovery of services fails. *)
Definition dev_no_services : Device unit :=
  mkDevice
    {| ID := "C4:7C:8D:00:00:06";
       Name := "Flower care";
       Connect := fun s => Some s;
       DiscoverServices := fun s => (Err "link lost", s);
       DiscoverCharacteristics := fun _ s => (Ok [], s);
       ReadCharacteristic := fun _ s => (Ok [], s);
       WriteCharacteristic := fun _ _ _ s => (None, s);
       ReadLongCharacteristic := fun _ s => (Ok [], s);
       CancelConnection := fun s => s |}
    (WithField fldDevice "C4:7C:8D:00:00:06" ∅) "".

(** A sensor payload that differs from the fixture in the reserved bytes and
    carries two more bytes at its end. *)
Definition sensor_fixture_variant : list byte :=
  [Byte.xce; Byte.x00; Byte.xff; Byte.x90; Byte.x01; Byte.x12; Byte.x34;
   Byte.x28; Byte.xe8; Byte.x00; Byte.xaa; Byte.xbb].

(** An answer of the decoder that changes no field of the configuration. *)
Definition decode_nothing (f : unit) (conf : Configuration) : result Configuration :=
  Ok conf.

(** ** What the discovery of characteristics found *)

(** The answers that the peripheral gave, one list of characteristics for
    each service with the sensor service's UUID, in the order of the
    services, from the state [s] of the radio on. *)
Inductive Discovered {St : Type} (p : Peripheral St)
    : list Service -> St -> list (list Characteristic) -> St -> Prop :=
  | Discovered_nil s :
      Discovered p [] s [] s
  | Discovered_other service rest s answers s' :
      UUID service <> floraServiceUUID ->
      Discovered p rest s answers s' ->
      Discovered p (service :: rest) s answers s'
  | Discovered_sensor service rest s characteristics s1 answers s' :
      UUID service = floraServiceUUID ->
      DiscoverCharacteristics p service s = (Ok characteristics, s1) ->
      Discovered p rest s1 answers s' ->
      Discovered p (service :: rest) s (characteristics :: answers) s'.

(** The realtime data switch was discovered: one of the answers holds a
    characteristic with its handle. *)
Definition switch_offered (answers : list (list Characteristic)) : Prop :=
  exists characteristics c,
    In characteristics answers /\ In c characteristics
    /\ VHandle c = vHandleRealtimeData.

(** * Lemmas *)

(** ** Facts about bytes, established by running through all of them *)

Lemma all_bytes_complete (b : byte) : In b all_bytes.
Proof.
  assert (H : nth (Byte.to_nat b) all_bytes Byte.x00 = b)
    by (destruct b; reflexivity).
  rewrite <- H. apply nth_In.
  pose proof (Byte.to_nat_bounded b) as Hb.
  change (length all_bytes) with 256%nat. lia.
Qed.

Lemma forall_byte (P : byte -> bool) :
  forallb P all_bytes = true -> forall b, P b = true.
Proof.
  intros H b. rewrite forallb_forall in H. apply H, all_bytes_complete.
Qed.

Lemma forall_byte2 (P : byte -> byte -> bool) :
  forallb (fun lo => forallb (P lo) all_bytes) all_bytes = true ->
  forall lo hi, P lo hi = true.
Proof.
  intros H lo hi.
  apply (forall_byte (P lo)). revert lo. apply forall_byte. exact H.
Qed.

Lemma byte_val_range (b : byte) : 0 <= byte_val b < 256.
Proof.
  unfold byte_val. pose proof (Byte.to_N_bounded b). lia.
Qed.

(** The shift-and-or of [LittleEndian.Uint16] is the positional sum. *)
Lemma LittleEndian_Uint16_u16le (lo hi : byte) :
  binary.LittleEndian_Uint16 [lo; hi] = u16le lo hi.
Proof.
  apply Z.eqb_eq. revert lo hi. apply forall_byte2. vm_compute. reflexivity.
Qed.

Lemma u16le_range (lo hi : byte) : 0 <= u16le lo hi < 65536.
Proof.
  unfold u16le. pose proof (byte_val_range lo). pose proof (byte_val_range hi). lia.
Qed.

(** The conversion [int16(u)] on a little-endian pair is its two's
    complement value. *)
Lemma int16_of_uint16_i16le (lo hi : byte) :
  int16_of_uint16 (binary.LittleEndian_Uint16 [lo; hi]) = i16le lo hi.
Proof.
  rewrite LittleEndian_Uint16_u16le. unfold int16_of_uint16, i16le.
  pose proof (u16le_range lo hi).
  destruct (Z.ltb_spec (u16le lo hi) 32768).
  - rewrite Z.mod_small by lia. lia.
  - replace (u16le lo hi + 32768) with (u16le lo hi - 32768 + 1 * 65536) by lia.
    rewrite Z.mod_add by lia. rewrite Z.mod_small by lia. lia.
Qed.

(** ** Reading fixed-size fields from a buffer *)

Lemma ReadAtLeast_loop_step (fuel m : nat) (got : list byte) (b : bytes.Buffer) :
  io.ReadAtLeast_loop (S fuel) (S m) got b =
    let '(chunk, err, b') := bytes.Read (S m) b in
    match err with
    | Some e => (got ++ chunk, Some e, b')
    | None => io.ReadAtLeast_loop fuel (S m - length chunk) (got ++ chunk) b'
    end.
Proof. reflexivity. Qed.

Lemma ReadAtLeast_loop_done (fuel : nat) (got : list byte) (b : bytes.Buffer) :
  io.ReadAtLeast_loop fuel 0 got b = (got, None, b).
Proof. destruct fuel; reflexivity. Qed.

Lemma Read_nonempty (n : nat) (x : byte) (b : bytes.Buffer) :
  bytes.Read n (x :: b) = (firstn n (x :: b), None, skipn n (x :: b)).
Proof. destruct n; reflexivity. Qed.

Lemma ReadFull_enough (n : nat) (b : bytes.Buffer) :
  (n <= length b)%nat -> io.ReadFull n b = (firstn n b, None, skipn n b).
Proof.
  intros Hn. unfold io.ReadFull.
  destruct n as [|n].
  - rewrite ReadAtLeast_loop_done. reflexivity.
  - destruct b as [|x b]; [cbn in Hn; lia|].
    rewrite ReadAtLeast_loop_step, Read_nonempty.
    rewrite length_take, Nat.min_l by exact Hn.
    rewrite Nat.sub_diag, ReadAtLeast_loop_done. cbn [app].
    rewrite length_take, Nat.min_l by exact Hn.
    now rewrite Nat.leb_refl.
Qed.

Lemma ReadFull_short (n : nat) (b : bytes.Buffer) :
  (length b < n)%nat ->
  io.ReadFull n b =
    (b, Some (match b with [] => EOF | _ :: _ => ErrUnexpectedEOF end), []).
Proof.
  intros Hn. unfold io.ReadFull.
  destruct n as [|n]; [lia|].
  destruct b as [|x b].
  - reflexivity.
  - rewrite ReadAtLeast_loop_step, Read_nonempty.
    rewrite take_ge, drop_ge by lia. cbn [app].
    destruct (S n - length (x :: b))%nat as [|k] eqn:Hk; [lia|].
    rewrite ReadAtLeast_loop_step. cbn [bytes.Read]. rewrite app_nil_r.
    destruct (Nat.leb_spec (S n) (length (x :: b))); [lia|reflexivity].
Qed.

(** A [binary.Read] of [size] bytes at offset [i] of the payload: the variable
    receives the converted bytes when they are all there and keeps its value
    otherwise; either way the buffer then stands at offset [i + size]. *)
Lemma binary_Read_at (size : nat) (conv : list byte -> Z) (i : nat)
    (data : list byte) (v : Z) :
  (0 < size)%nat ->
  exists err,
    binary.Read size conv (skipn i data) v =
      (if (i + size <=? length data)%nat
       then conv (firstn size (skipn i data)) else v,
       err, skipn (i + size) data)
    /\ (err = None <-> (i + size <= length data)%nat).
Proof.
  intros Hsize. unfold binary.Read.
  destruct (Nat.leb_spec (i + size) (length data)) as [Hle|Hlt].
  - rewrite ReadFull_enough by (rewrite length_drop; lia).
    rewrite drop_drop. exists None. split; [reflexivity|tauto].
  - rewrite ReadFull_short by (rewrite length_drop; lia).
    rewrite (drop_ge data (i + size)) by lia.
    eexists. split; [reflexivity|]. split; [discriminate|lia].
Qed.

Lemma take2_drop (i : nat) (data : list byte) (lo hi : byte) :
  data !! i = Some lo -> data !! S i = Some hi ->
  exists rest, skipn i data = lo :: hi :: rest.
Proof.
  revert data. induction i as [|i IH]; intros data Hlo Hhi.
  - destruct data as [|x [|y rest]]; try discriminate.
    cbn in Hlo, Hhi. injection Hlo as ->. injection Hhi as ->. now exists rest.
  - destruct data as [|x data]; [discriminate|]. cbn. now apply IH.
Qed.

Lemma lookup_two (i : nat) (data : list byte) :
  (i + 2 <= length data)%nat ->
  exists lo hi, data !! i = Some lo /\ data !! S i = Some hi.
Proof.
  intros H.
  destruct (lookup_lt_is_Some_2 data i) as [lo Hlo]; [lia|].
  destruct (lookup_lt_is_Some_2 data (S i)) as [hi Hhi]; [lia|].
  now exists lo, hi.
Qed.

Lemma Read_uint16_at (i : nat) (data : list byte) (v : Z) :
  exists err,
    binary.Read_uint16 (skipn i data) v =
      (default v (u16le_at i data), err, skipn (i + 2) data)
    /\ (err = None <-> (i + 2 <= length data)%nat).
Proof.
  destruct (binary_Read_at 2 binary.LittleEndian_Uint16 i data v) as (err & E & Herr);
    [lia|].
  exists err. split; [|exact Herr].
  unfold binary.Read_uint16. rewrite E. f_equal. f_equal. unfold u16le_at.
  destruct (Nat.leb_spec (i + 2) (length data)) as [Hle|Hlt].
  - destruct (lookup_two i data Hle) as (lo & hi & Hlo & Hhi).
    rewrite Hlo, Hhi. destruct (take2_drop i data lo hi Hlo Hhi) as [rest ->].
    cbn [firstn default]. apply LittleEndian_Uint16_u16le.
  - destruct (data !! i) as [lo|] eqn:Hlo; [|reflexivity].
    rewrite (lookup_ge_None_2 data (S i)) by lia. reflexivity.
Qed.

Lemma Read_int16_at (i : nat) (data : list byte) (v : Z) :
  exists err,
    binary.Read_int16 (skipn i data) v =
      (default v (i16le_at i data), err, skipn (i + 2) data)
    /\ (err = None <-> (i + 2 <= length data)%nat).
Proof.
  destruct (binary_Read_at 2
              (fun bs => int16_of_uint16 (binary.LittleEndian_Uint16 bs))
              i data v) as (err & E & Herr); [lia|].
  exists err. split; [|exact Herr].
  unfold binary.Read_int16. rewrite E. f_equal. f_equal. unfold i16le_at.
  destruct (Nat.leb_spec (i + 2) (length data)) as [Hle|Hlt].
  - destruct (lookup_two i data Hle) as (lo & hi & Hlo & Hhi).
    rewrite Hlo, Hhi. destruct (take2_drop i data lo hi Hlo Hhi) as [rest ->].
    cbn [firstn default]. apply int16_of_uint16_i16le.
  - destruct (data !! i) as [lo|] eqn:Hlo; [|reflexivity].
    rewrite (lookup_ge_None_2 data (S i)) by lia. reflexivity.
Qed.

Lemma Read_uint8_at (i : nat) (data : list byte) (v : Z) :
  exists err,
    binary.Read_uint8 (skipn i data) v =
      (default v (u8_at i data), err, skipn (i + 1) data)
    /\ (err = None <-> (i + 1 <= length data)%nat).
Proof.
  destruct (binary_Read_at 1
              (fun bs => match bs with b0 :: _ => byte_val b0 | [] => 0 end)
              i data v) as (err & E & Herr); [lia|].
  exists err. split; [|exact Herr].
  unfold binary.Read_uint8. rewrite E. f_equal. f_equal. unfold u8_at.
  destruct (Nat.leb_spec (i + 1) (length data)) as [Hle|Hlt].
  - destruct (lookup_lt_is_Some_2 data i) as [b Hb]; [lia|].
    rewrite Hb. cbn [fmap option_fmap option_map default].
    rewrite (drop_S data b i Hb). reflexivity.
  - rewrite (lookup_ge_None_2 data i) by lia. reflexivity.
Qed.

(** ** The decoders in closed form

    For a payload of any length each decoder equals a record built from the
    layout: a field whose bytes are all present is decoded from them, any
    other field of the decoder is set to its zero value, and the fields of the
    other decoder are left as they were. *)

Lemma decodeFirmwareData_eq (data : list byte) (rd : Readings) :
  decodeFirmwareData data rd =
    {| FirmwareVersion := String.string_of_list_byte (skipn 2 data);
       BatteryLevel := default 0 (u8_at 0 data);
       Temperature := Temperature rd;
       Moisture := Moisture rd;
       Light := Light rd;
       Conductivity := Conductivity rd |}.
Proof.
  unfold decodeFirmwareData, bytes.NewBuffer, bytes.Next, bytes.Buffer_String.
  destruct (Read_uint8_at 0 data 0) as (e & E & _).
  rewrite drop_0 in E. rewrite E, drop_drop. reflexivity.
Qed.

Lemma decodeSensorData_eq (data : list byte) (rd : Readings) :
  decodeSensorData data rd =
    {| FirmwareVersion := FirmwareVersion rd;
       BatteryLevel := BatteryLevel rd;
       Temperature := PrimFloat.div (float64_of_int16 (default 0 (i16le_at 0 data))) 10%float;
       Moisture := default 0 (u8_at 7 data);
       Light := default 0 (u16le_at 3 data);
       Conductivity := default 0 (u16le_at 8 data) |}.
Proof.
  unfold decodeSensorData, bytes.NewBuffer, bytes.Next.
  destruct (Read_int16_at 0 data 0) as (e1 & E1 & _).
  rewrite drop_0 in E1. rewrite E1, drop_drop. cbn [Nat.add].
  destruct (Read_uint16_at 3 data 0) as (e2 & E2 & _).
  rewrite E2, drop_drop. cbn [Nat.add].
  destruct (Read_uint8_at 7 data 0) as (e3 & E3 & _).
  rewrite E3. cbn [Nat.add].
  destruct (Read_uint16_at 8 data 0) as (e4 & E4 & _).
  rewrite E4. reflexivity.
Qed.


(** ** Accuracy of the temperature *)

(** The quotient is the nearest binary64 value: below 4096 these are at most
    [2^-41] apart, so the error is at most [2^-42]. *)
Lemma temperature_accurate (lo hi : byte) :
  (Qabs (float64_to_Q (temperature_of lo hi) - (i16le lo hi # 10))
     <= 1 # (2 ^ 42))%Q.
Proof.
  apply Qle_bool_iff. revert lo hi. apply forall_byte2.
  vm_compute. reflexivity.
Qed.

(** Multiplying the stored temperature by 10 gives back the integer exactly
    (10 is a sum of two powers of two). *)
Lemma temperature_times_10 (lo hi : byte) :
  float64_trunc (temperature_of lo hi * 10)%float = Some (i16le lo hi).
Proof.
  assert (H : forall lo hi,
    match float64_trunc (temperature_of lo hi * 10)%float with
    | Some z => z =? i16le lo hi
    | None => false
    end = true).
  { apply forall_byte2. vm_compute. reflexivity. }
  specialize (H lo hi).
  destruct (float64_trunc _) as [z|]; [|discriminate].
  apply Z.eqb_eq in H. now subst.
Qed.

(** ** Encoding is inverse to decoding, field by field *)

Lemma byte_of_Z_byte_val (b : byte) : byte_of_Z (byte_val b) = b.
Proof.
  apply Byte.byte_dec_bl. revert b. apply forall_byte. vm_compute. reflexivity.
Qed.

Lemma put_u16le_u16le (lo hi : byte) : put_u16le (u16le lo hi) = [lo; hi].
Proof.
  assert (H : forall lo hi,
    match put_u16le (u16le lo hi) with
    | [a; b] => Byte.eqb a lo && Byte.eqb b hi
    | _ => false
    end = true).
  { apply forall_byte2. vm_compute. reflexivity. }
  specialize (H lo hi).
  destruct (put_u16le (u16le lo hi)) as [|a [|b [|c r]]]; try discriminate.
  apply andb_prop in H as [Ha Hb].
  apply Byte.byte_dec_bl in Ha, Hb. now subst.
Qed.

Lemma put_i16le_i16le (lo hi : byte) : put_i16le (i16le lo hi) = [lo; hi].
Proof.
  assert (H : i16le lo hi mod 65536 = u16le lo hi).
  { unfold i16le. pose proof (u16le_range lo hi).
    destruct (Z.ltb_spec (u16le lo hi) 32768).
    - apply Z.mod_small. lia.
    - replace (u16le lo hi - 65536) with (u16le lo hi + (-1) * 65536) by lia.
      rewrite Z.mod_add by lia. apply Z.mod_small. lia. }
  unfold put_i16le. rewrite H. apply put_u16le_u16le.
Qed.

(** The closed form on a payload of exactly ten bytes. *)
Lemma decodeSensorData_ten (b0 b1 b2 b3 b4 b5 b6 b7 b8 b9 : byte) (rd : Readings) :
  decodeSensorData [b0; b1; b2; b3; b4; b5; b6; b7; b8; b9] rd =
    {| FirmwareVersion := FirmwareVersion rd;
       BatteryLevel := BatteryLevel rd;
       Temperature := temperature_of b0 b1;
       Moisture := byte_val b7;
       Light := u16le b3 b4;
       Conductivity := u16le b8 b9 |}.
Proof. rewrite decodeSensorData_eq. reflexivity. Qed.

(** ** Sessions *)

Lemma discoverLoop_spec {St : Type} (p : Peripheral St) (services : list Service)
    (h : Handles) (s : St) (made : list Call) :
  exists disc r s',
    discoverLoop p services h (s, made) = (r, (s', made ++ disc))
    /\ Forall (fun c => is_discovery c = true) disc
    /\ forall e, r = inr e -> exists msg, e = Some (TransportError msg).
Proof.
  revert h s made. induction services as [|service rest IH]; intros h s made.
  - exists [], (inl h), s. rewrite app_nil_r. repeat split; [constructor|discriminate].
  - cbn [discoverLoop]. destruct (String.eqb (UUID service) floraServiceUUID).
    + unfold mbind, Session_bind, callDiscoverCharacteristics.
      destruct (DiscoverCharacteristics p service s) as [[cs|msg] s1].
      * destruct (IH (fold_left selectCharacteristic cs h) s1
                    (made ++ [CallDiscoverCharacteristics service]))
          as (disc & r & s' & E & Hd & He).
        exists (CallDiscoverCharacteristics service :: disc), r, s'.
        rewrite E, <- app_assoc. repeat split; [constructor; [reflexivity|exact Hd]|exact He].
      * exists [CallDiscoverCharacteristics service], (inr (Some (TransportError msg))), s1.
        repeat split; [repeat constructor|].
        intros e [= <-]. now exists msg.
    + apply IH.
Qed.

Lemma enableRealtime_spec {St : Type} (p : Peripheral St) (h : Handles)
    (rd : Readings) (s : St) (made : list Call) :
  exists w r s',
    enableRealtime p h rd (s, made) = (r, (s', made ++ w))
    /\ match r with
       | inl _ => Gate (FirmwareVersion rd) w None
       | inr None => False
       | inr (Some e) => Gate (FirmwareVersion rd) w (Some e)
       end.
Proof.
  unfold enableRealtime.
  destruct (string_gt (FirmwareVersion rd) "2.6.6") eqn:Hv.
  - destruct (cRealtimeData h) as [c|].
    + unfold mbind, Session_bind, callWriteCharacteristic.
      destruct (WriteCharacteristic p c realtimeCommand false s) as [[msg|] s1].
      * eexists _, _, _. split; [reflexivity|]. now apply Gate_write_failed.
      * eexists _, _, _. split; [reflexivity|]. now apply Gate_written.
    + exists [], (inr (Some RealtimeSwitchNotFound)), s. rewrite app_nil_r.
      split; [reflexivity|]. now apply Gate_no_switch.
  - exists [], (inl tt), s. rewrite app_nil_r.
    split; [reflexivity|]. now apply Gate_old.
Qed.

Lemma onPeripheralConnected_outcome {St : Type} (p : Peripheral St) (s0 : St) :
  exists made r s1,
    onPeripheralConnected p (s0, []) = (r, (s1, made))
    /\ match r with
       | inl rd => Outcome (made ++ [CallCancelConnection]) (Some rd) None
       | inr e => Outcome (made ++ [CallCancelConnection]) None e
       end.
Proof.
  unfold onPeripheralConnected.
  unfold mbind at 1. unfold Session_bind at 1. unfold callDiscoverServices.
  destruct (DiscoverServices p s0) as [[services|msg] s1]; cbn [app].
  2:{ eexists _, _, _. split; [reflexivity|]. apply Outcome_services_failed. }
  unfold mbind at 1. unfold Session_bind at 1.
  destruct (discoverLoop_spec p services noHandles s1 [CallDiscoverServices])
    as (disc & r & s2 & E & Hdisc & Herr).
  rewrite E. clear E.
  assert (Hd : Forall (fun c => is_discovery c = true) ([CallDiscoverServices] ++ disc))
    by (constructor; [reflexivity|exact Hdisc]).
  set (d := [CallDiscoverServices] ++ disc) in *. clearbody d. clear Hdisc.
  destruct r as [h|e].
  2:{ destruct (Herr e eq_refl) as [msg ->].
      eexists _, _, _. split; [reflexivity|].
      now apply Outcome_characteristics_failed. }
  clear Herr.
  destruct (cFirmware h) as [cF|].
  2:{ eexists _, _, _. split; [reflexivity|].
      now apply Outcome_no_firmware_characteristic. }
  unfold mbind at 1. unfold Session_bind at 1. unfold callReadCharacteristic.
  destruct (ReadCharacteristic p cF s2) as [[data|msg] s3].
  2:{ eexists _, _, _. split; [reflexivity|].
      rewrite <- app_assoc. now apply Outcome_firmware_read_failed. }
  unfold mbind at 1. unfold Session_bind at 1.
  destruct (enableRealtime_spec p h (decodeFirmwareData data Readings_zero) s3
              (d ++ [CallReadCharacteristic cF (Ok data)]))
    as (w & g & s4 & E & Hg).
  rewrite E. clear E.
  destruct g as [[]|[e|]]; [|
    eexists _, _, _; split; [reflexivity|];
    rewrite <- !app_assoc; now apply Outcome_gate_closed | contradiction].
  destruct (cReadings h) as [cR|].
  2:{ eexists _, _, _. split; [reflexivity|].
      rewrite <- !app_assoc. cbn [app].
      apply (Outcome_gate_passed d cF data w [] None _ Hd Hg).
      apply SensorRead_no_characteristic. }
  unfold mbind, Session_bind, callReadLongCharacteristic.
  destruct (ReadLongCharacteristic p cR s4) as [[sdata|msg] s5].
  - eexists _, _, _. split; [reflexivity|].
    rewrite <- !app_assoc. cbn [app].
    apply (Outcome_gate_passed d cF data w [_] _ _ Hd Hg).
    apply SensorRead_done.
  - eexists _, _, _. split; [reflexivity|].
    rewrite <- !app_assoc. cbn [app].
    apply (Outcome_gate_passed d cF data w [_] _ _ Hd Hg).
    apply SensorRead_failed.
Qed.

(** Every [FetchReadings] that returns has one of the shapes of [Outcome]. *)
Lemma FetchReadings_outcome {St : Type} (dev : Device St) (s : St) (f : Fetched St) :
  FetchReadings dev s = Some f -> Outcome (calls f) (out f) (errOut f).
Proof.
  unfold FetchReadings. destruct (Connect (peripheral dev) s) as [s0|]; [|discriminate].
  destruct (onPeripheralConnected_outcome (peripheral dev) s0)
    as (made & r & s1 & E & H).
  rewrite E. intros [= <-]. destruct r; exact H.
Qed.

(** [FetchReadings] returns whenever the connection is reported. *)
Lemma FetchReadings_returns {St : Type} (dev : Device St) (s s0 : St) :
  Connect (peripheral dev) s = Some s0 -> is_Some (FetchReadings dev s).
Proof.
  intros H. unfold FetchReadings. rewrite H.
  destruct (onPeripheralConnected (peripheral dev) (s0, [])) as [r [s1 made]].
  eauto.
Qed.

(** ** Calls of a session, by kind *)

Lemma discovery_calls (disc : list Call) :
  Forall (fun c => is_discovery c = true) disc ->
  List.filter is_write disc = []
  /\ List.filter is_sensor_read disc = []
  /\ forall c, In c disc -> is_discovery c = true.
Proof.
  intros H. repeat split.
  - induction H as [|c l Hc _ IH]; [reflexivity|].
    destruct c; try discriminate; exact IH.
  - induction H as [|c l Hc _ IH]; [reflexivity|].
    destruct c; try discriminate; exact IH.
  - intros c Hin. rewrite Forall_forall in H. apply H.
    now apply list_elem_of_In.
Qed.

Lemma Gate_calls (v : string) (w : list Call) (e : option error) :
  Gate v w e ->
  List.filter is_sensor_read w = []
  /\ (forall c, In c w -> is_write c = true)
  /\ (string_gt v "2.6.6" = false -> w = [] /\ e = None)
  /\ (string_gt v "2.6.6" = true ->
        (w = [] /\ e = Some RealtimeSwitchNotFound)
        \/ exists c, w = [CallWriteCharacteristic c realtimeCommand false]).
Proof.
  intros H. destruct H as [Hv|Hv|c msg Hv|c Hv]; repeat split;
    try reflexivity; try congruence.
  - intros c [].
  - intros c [].
  - intros _. now left.
  - intros c' [<-|[]]. reflexivity.
  - intros _. right. now exists c.
  - intros c' [<-|[]]. reflexivity.
  - intros _. right. now exists c.
Qed.

Lemma SensorRead_calls (rd : Readings) (tail : list Call) (o : option Readings)
    (e : option error) :
  SensorRead rd tail o e ->
  List.filter is_write tail = []
  /\ forall c, In c tail -> is_sensor_read c = true.
Proof.
  intros H. destruct H; split; try reflexivity.
  - intros c [].
  - intros c' [<-|[]]. reflexivity.
  - intros c' [<-|[]]. reflexivity.
Qed.

(** The firmware payload of a session is the one its single
    [ReadCharacteristic] returned. *)
Lemma firmware_read_unique (disc w tail : list Call) (c c' : Characteristic)
    (data data' : list byte) (v : string) (e : option error) (rd : Readings)
    (o : option Readings) (e' : option error) :
  Forall (fun c => is_discovery c = true) disc ->
  Gate v w e -> (tail = [] \/ SensorRead rd tail o e') ->
  In (CallReadCharacteristic c' (Ok data'))
     (disc ++ CallReadCharacteristic c (Ok data) :: w ++ tail ++ [CallCancelConnection]) ->
  data' = data.
Proof.
  intros Hd Hg Ht Hin.
  apply in_app_or in Hin as [Hin|[Heq|Hin]].
  - apply (discovery_calls disc Hd) in Hin. discriminate.
  - now injection Heq.
  - apply in_app_or in Hin as [Hin|Hin].
    + apply (Gate_calls v w e Hg) in Hin. discriminate.
    + apply in_app_or in Hin as [Hin|[Hin|[]]]; [|discriminate].
      destruct Ht as [->|Ht]; [destruct Hin|].
      apply (SensorRead_calls _ _ _ _ Ht) in Hin. discriminate.
Qed.

(** ** Discovery *)

Lemma onPeripheralDiscovered_invariant {St : Type} (confMap : gmap string Config)
    (logger : LoggerEntry) (roster : list (Device St)) (p : Peripheral St)
    (P : Device St -> Prop) :
  (forall logger' alias,
      (forall conf, confMap !! ID p = Some conf -> Ignore conf = false) ->
      P (mkDevice p logger' alias)) ->
  Forall P roster -> Forall P (onPeripheralDiscovered confMap logger roster p).
Proof.
  intros Hnew Hroster. unfold onPeripheralDiscovered.
  destruct (floraDeviceNames !! Name p); [|exact Hroster].
  destruct (confMap !! ID p) as [conf|] eqn:Hconf.
  - destruct (Ignore conf) eqn:Hign; [exact Hroster|].
    apply Forall_app. split; [exact Hroster|]. constructor; [|constructor].
    destruct (String.eqb (Alias conf) ""); apply Hnew; congruence.
  - apply Forall_app. split; [exact Hroster|]. constructor; [|constructor].
    apply Hnew. discriminate.
Qed.

Lemma Discover_not_ignored {St : Type} (newDevice : option string)
    (scan : Z -> list (Peripheral St)) (timeout : Z)
    (confMap : gmap string Config) (logger : LoggerEntry) :
  Forall (fun dev => forall conf, confMap !! GetID dev = Some conf -> Ignore conf = false)
    (fst (Discover newDevice scan timeout confMap logger)).
Proof.
  unfold Discover. destruct newDevice; [constructor|]. cbn [fst].
  generalize (scan timeout). intros ps.
  assert (H : forall roster : list (Device St),
    Forall (fun dev => forall conf, confMap !! GetID dev = Some conf -> Ignore conf = false) roster ->
    Forall (fun dev => forall conf, confMap !! GetID dev = Some conf -> Ignore conf = false)
      (fold_left (onPeripheralDiscovered confMap logger) ps roster)).
  { induction ps as [|p ps IH]; intros roster Hr; [exact Hr|].
    cbn [fold_left]. apply IH.
    apply onPeripheralDiscovered_invariant; [|exact Hr].
    intros logger' alias Hp. exact Hp. }
  apply H. constructor.
Qed.

(** ** The poll tick *)

Lemma pollTick_cons_returned {St : Type} (d : Device St) (post : list (Device St))
    (s : St) (f : Fetched St) :
  FetchReadings d s = Some f ->
  pollTick (d :: post) s =
    (Polled (GetID d) (calls f)
       :: match errOut f with
          | Some err => LoggedError (GetID d) err
          | None => LoggedReadings (GetID d) (out f)
          end
       :: fst (pollTick post (after f)),
     snd (pollTick post (after f))).
Proof.
  intros H. cbn [pollTick]. rewrite H.
  destruct (errOut f); destruct (pollTick post (after f)); reflexivity.
Qed.

Lemma pollTick_app {St : Type} (pre post : list (Device St)) (s s1 : St)
    (evs : list TickEvent) :
  pollTick pre s = (evs, Some s1) ->
  pollTick (pre ++ post) s = (evs ++ fst (pollTick post s1), snd (pollTick post s1)).
Proof.
  revert s evs. induction pre as [|d pre IH]; intros s evs H.
  - cbn in H. injection H as <- <-. cbn [app]. now destruct (pollTick post s).
  - cbn [app]. destruct (FetchReadings d s) as [f|] eqn:Hf.
    + rewrite (pollTick_cons_returned d pre s f Hf) in H.
      rewrite (pollTick_cons_returned d (pre ++ post) s f Hf).
      destruct (pollTick pre (after f)) as [evs0 [s0|]] eqn:Hpre;
        cbn [fst snd] in H; [|discriminate].
      injection H as <- <-.
      rewrite (IH (after f) evs0 Hpre). reflexivity.
    + cbn [pollTick] in H. rewrite Hf in H. discriminate.
Qed.

(** A tick that comes to its end has polled every device of the roster, in
    the order of the roster. *)
Lemma pollTick_polls_all {St : Type} (devices : list (Device St)) (s s' : St)
    (evs : list TickEvent) :
  pollTick devices s = (evs, Some s') -> polled_ids evs = map GetID devices.
Proof.
  revert s evs. induction devices as [|d rest IH]; intros s evs H.
  - cbn in H. now injection H as <- _.
  - destruct (FetchReadings d s) as [f|] eqn:Hf.
    + rewrite (pollTick_cons_returned d rest s f Hf) in H.
      destruct (pollTick rest (after f)) as [evs0 [s0|]] eqn:Hrest;
        cbn [fst snd] in H; [|discriminate].
      injection H as <- <-. cbn [map]. rewrite <- (IH (after f) evs0 Hrest).
      destruct (errOut f); reflexivity.
    + cbn [pollTick] in H. rewrite Hf in H. discriminate.
Qed.

(** A tick comes to its end when every peripheral of the roster connects. *)
Lemma pollTick_returns {St : Type} (devices : list (Device St)) (s : St) :
  (forall d s0, In d devices -> is_Some (Connect (peripheral d) s0)) ->
  is_Some (snd (pollTick devices s)).
Proof.
  revert s. induction devices as [|d rest IH]; intros s H.
  - cbn. eauto.
  - destruct (H d s (or_introl eq_refl)) as [s0 Hs0].
    destruct (FetchReadings_returns d s s0 Hs0) as [f Hf].
    rewrite (pollTick_cons_returned d rest s f Hf). cbn [snd].
    apply IH. intros d' s' Hin. apply H. now right.
Qed.

Lemma pollTick_no_sink_write {St : Type} (devices : list (Device St)) (s : St) :
  sink_writes (fst (pollTick devices s)) = [].
Proof.
  revert s. induction devices as [|d rest IH]; intros s; [reflexivity|].
  destruct (FetchReadings d s) as [f|] eqn:Hf.
  - rewrite (pollTick_cons_returned d rest s f Hf). cbn [fst].
    unfold sink_writes in *. cbn [List.filter].
    destruct (errOut f); apply IH.
  - cbn [pollTick]. rewrite Hf. reflexivity.
Qed.

(** ** Consequences of the shape of a session *)

Lemma Outcome_never_malformed (made : list Call) (o : option Readings)
    (e : option error) :
  Outcome made o e -> e <> Some MalformedPayload.
Proof.
  intros H. destruct H as [| | | |disc c data w e _ Hg|disc c data w tail o e _ _ Hs];
    try discriminate.
  - inversion Hg; discriminate.
  - destruct Hs; discriminate.
Qed.

Lemma Outcome_error_no_readings (made : list Call) (o : option Readings)
    (e : error) :
  Outcome made o (Some e) -> o = None.
Proof.
  intros H. inversion H as [| | | | |disc c data w tail o' e' _ _ Hs]; subst;
    try reflexivity.
  inversion Hs; reflexivity.
Qed.

Lemma Outcome_readings (made : list Call) (rd : Readings) (e : option error) :
  Outcome made (Some rd) e ->
  e = None
  /\ exists disc cF fdata w cR sdata,
      made = disc ++ CallReadCharacteristic cF (Ok fdata)
               :: w ++ [CallReadLongCharacteristic cR (Ok sdata); CallCancelConnection]
      /\ rd = decodeSensorData sdata (decodeFirmwareData fdata Readings_zero).
Proof.
  intros H. inversion H as [| | | | |disc c data w tail o' e' _ _ Hs]; subst.
  inversion Hs; subst. split; [reflexivity|].
  eexists _, _, _, _, _, _. split; reflexivity.
Qed.

(** The realtime switch in a session that read the firmware payload [data]. *)
Lemma Outcome_gate (made : list Call) (o : option Readings) (e : option error)
    (cF : Characteristic) (data : list byte) :
  Outcome made o e ->
  In (CallReadCharacteristic cF (Ok data)) made ->
  let v := FirmwareVersion (decodeFirmwareData data Readings_zero) in
  (string_gt v "2.6.6" = false -> List.filter is_write made = [])
  /\ (string_gt v "2.6.6" = true ->
        (e = Some RealtimeSwitchNotFound
         /\ List.filter is_write made = []
         /\ List.filter is_sensor_read made = [])
        \/ exists before c rest,
            made = before ++ CallWriteCharacteristic c realtimeCommand false :: rest
            /\ List.filter is_write before = []
            /\ List.filter is_sensor_read before = []
            /\ List.filter is_write rest = []).
Proof.
  intros H Hin v. subst v.
  destruct H as [|disc msg Hd|disc Hd|disc c msg Hd|disc c data0 w e Hd Hg
                 |disc c data0 w tail o e Hd Hg Hs].
  - destruct Hin as [Hin|[Hin|[]]]; discriminate.
  - apply in_app_or in Hin as [Hin|[Hin|[]]]; [|discriminate].
    apply (discovery_calls disc Hd) in Hin. discriminate.
  - apply in_app_or in Hin as [Hin|[Hin|[]]]; [|discriminate].
    apply (discovery_calls disc Hd) in Hin. discriminate.
  - apply in_app_or in Hin as [Hin|[Hin|[Hin|[]]]]; try discriminate.
    apply (discovery_calls disc Hd) in Hin. discriminate.
  - assert (data = data0) as ->.
    { apply (firmware_read_unique disc w [] c cF data0 data _ _ Readings_zero None None Hd Hg).
      - now left.
      - exact Hin. }
    destruct (discovery_calls disc Hd) as (Hdw & Hds & _).
    destruct (Gate_calls _ _ _ Hg) as (_ & _ & Hold & Hnew).
    split.
    + intros Hv. destruct (Hold Hv) as [_ ?]. discriminate.
    + intros Hv. destruct (Hnew Hv) as [[-> He]|[c' ->]].
      * left. split; [exact He|].
        rewrite !List.filter_app, Hdw, Hds. split; reflexivity.
      * right. exists (disc ++ [CallReadCharacteristic c (Ok data0)]), c', [CallCancelConnection].
        rewrite <- app_assoc. split; [reflexivity|].
        rewrite !List.filter_app, Hdw, Hds. repeat split; reflexivity.
  - assert (data = data0) as ->.
    { apply (firmware_read_unique disc w tail c cF data0 data _ _
               (decodeFirmwareData data0 Readings_zero) o e Hd Hg).
      - right. exact Hs.
      - exact Hin. }
    destruct (discovery_calls disc Hd) as (Hdw & Hds & _).
    destruct (Gate_calls _ _ _ Hg) as (_ & _ & Hold & Hnew).
    destruct (SensorRead_calls _ _ _ _ Hs) as (Htw & _).
    split.
    + intros Hv. destruct (Hold Hv) as [-> _].
      rewrite List.filter_app, Hdw. cbn [app List.filter is_write].
      rewrite List.filter_app, Htw. reflexivity.
    + intros Hv. destruct (Hnew Hv) as [[_ He]|[c' ->]]; [discriminate|].
      right. exists (disc ++ [CallReadCharacteristic c (Ok data0)]), c', (tail ++ [CallCancelConnection]).
      rewrite <- app_assoc. split; [reflexivity|].
      rewrite !List.filter_app, Hdw, Hds, Htw. repeat split; reflexivity.
Qed.

(** ** The realtime data switch, from discovery to the write *)

Lemma cRealtimeData_select (h : Handles) (c : Characteristic) :
  cRealtimeData (selectCharacteristic h c)
    = if VHandle c =? vHandleRealtimeData then Some c else cRealtimeData h.
Proof.
  unfold selectCharacteristic.
  destruct (VHandle c =? vHandleRealtimeData); [reflexivity|].
  destruct (VHandle c =? vHandleSensorReadings); [reflexivity|].
  destruct (VHandle c =? vHandleFirmwareAndBattery); reflexivity.
Qed.

Lemma cRealtimeData_fold (cs : list Characteristic) (h : Handles) :
  (is_Some (cRealtimeData (fold_left selectCharacteristic cs h))
   <-> is_Some (cRealtimeData h)
       \/ exists c, In c cs /\ VHandle c = vHandleRealtimeData)
  /\ (forall c, cRealtimeData (fold_left selectCharacteristic cs h) = Some c ->
        cRealtimeData h = Some c \/ VHandle c = vHandleRealtimeData).
Proof.
  revert h. induction cs as [|c0 cs IH]; intros h.
  - cbn. split; [|auto]. split; [auto|]. intros [H|(c & [] & _)]. exact H.
  - cbn [fold_left]. destruct (IH (selectCharacteristic h c0)) as [IH1 IH2].
    rewrite cRealtimeData_select in IH1, IH2.
    destruct (Z.eqb_spec (VHandle c0) vHandleRealtimeData) as [E|E].
    + split.
      * split; [intros _; right; exists c0; split; [now left|exact E]|].
        intros _. apply IH1. left. eauto.
      * intros c Hc. destruct (IH2 c Hc) as [[= <-]|H]; auto.
    + split.
      * rewrite IH1. split.
        -- intros [H|(c & Hin & Hc)]; [now left|].
           right. exists c. split; [now right|exact Hc].
        -- intros [H|(c & [<-|Hin] & Hc)]; [now left|congruence|].
           right. now exists c.
      * exact IH2.
Qed.

Lemma cRealtimeData_answers (answers : list (list Characteristic)) (h : Handles) :
  (is_Some (cRealtimeData
              (fold_left (fun h cs => fold_left selectCharacteristic cs h) answers h))
   <-> is_Some (cRealtimeData h) \/ switch_offered answers)
  /\ (forall c,
        cRealtimeData
          (fold_left (fun h cs => fold_left selectCharacteristic cs h) answers h) = Some c ->
        cRealtimeData h = Some c \/ VHandle c = vHandleRealtimeData).
Proof.
  revert h. induction answers as [|cs answers IH]; intros h.
  - cbn. split; [|auto]. split; [auto|].
    intros [H|(cs & c & [] & _)]. exact H.
  - cbn [fold_left].
    destruct (IH (fold_left selectCharacteristic cs h)) as [IH1 IH2].
    destruct (cRealtimeData_fold cs h) as [F1 F2]. split.
    + rewrite IH1, F1. unfold switch_offered. split.
      * intros [[H|(c & Hin & Hc)]|(cs' & c & Hin & Hc)].
        -- now left.
        -- right. exists cs, c. split; [now left|now split].
        -- right. exists cs', c. split; [now right|exact Hc].
      * intros [H|(cs' & c & [<-|Hin] & Hc)].
        -- left. now left.
        -- left. right. exists c. exact Hc.
        -- right. now exists cs', c.
    + intros c Hc. destruct (IH2 c Hc) as [H|H]; [|now right].
      exact (F2 c H).
Qed.

Lemma discoverLoop_answers {St : Type} (p : Peripheral St) (services : list Service)
    (h h' : Handles) (s s' : St) (made made' : list Call) :
  discoverLoop p services h (s, made) = (inl h', (s', made')) ->
  exists answers,
    Discovered p services s answers s'
    /\ h' = fold_left (fun h cs => fold_left selectCharacteristic cs h) answers h.
Proof.
  revert h s made. induction services as [|service rest IH]; intros h s made H.
  - cbn in H. injection H as <- <- _. exists []. split; [constructor|reflexivity].
  - cbn [discoverLoop] in H.
    destruct (String.eqb_spec (UUID service) floraServiceUUID) as [Hu|Hu].
    + unfold mbind, Session_bind, callDiscoverCharacteristics in H.
      destruct (DiscoverCharacteristics p service s) as [[cs|msg] s1] eqn:Hd;
        [|discriminate].
      destruct (IH _ _ _ H) as (answers & HD & ->).
      exists (cs :: answers). split; [|reflexivity].
      now apply Discovered_sensor with (s1 := s1).
    + destruct (IH _ _ _ H) as (answers & HD & ->).
      exists answers. split; [|reflexivity]. now apply Discovered_other.
Qed.

(** The gate, tied to the pointer that the discovery left. *)
Lemma enableRealtime_tied {St : Type} (p : Peripheral St) (h : Handles)
    (rd : Readings) (s : St) (made : list Call) :
  exists w r s',
    enableRealtime p h rd (s, made) = (r, (s', made ++ w))
    /\ (string_gt (FirmwareVersion rd) "2.6.6" = false -> w = [] /\ r = inl tt)
    /\ (string_gt (FirmwareVersion rd) "2.6.6" = true ->
        match cRealtimeData h with
        | None => w = [] /\ r = inr (Some RealtimeSwitchNotFound)
        | Some c =>
            w = [CallWriteCharacteristic c realtimeCommand false]
            /\ (r = inl tt \/ exists msg, r = inr (Some (TransportError msg)))
        end).
Proof.
  unfold enableRealtime.
  destruct (string_gt (FirmwareVersion rd) "2.6.6") eqn:Hv.
  - destruct (cRealtimeData h) as [c|].
    + unfold mbind, Session_bind, callWriteCharacteristic.
      destruct (WriteCharacteristic p c realtimeCommand false s) as [[msg|] s1];
        eexists _, _, _; (split; [reflexivity|]); (split; [discriminate|]);
        intros _; (split; [reflexivity|]); eauto.
    + exists [], (inr (Some RealtimeSwitchNotFound)), s. rewrite app_nil_r.
      split; [reflexivity|]. split; [discriminate|]. intros _. now split.
  - exists [], (inl tt), s. rewrite app_nil_r.
    split; [reflexivity|]. split; [intros _; now split|discriminate].
Qed.

Lemma firmware_read_in_session (d w tail : list Call) (c c0 : Characteristic)
    (data data0 : list byte) :
  Forall (fun c => is_discovery c = true) d ->
  (forall x, In x w -> is_write x = true) ->
  (forall x, In x tail -> is_sensor_read x = true) ->
  In (CallReadCharacteristic c (Ok data))
     (d ++ CallReadCharacteristic c0 (Ok data0) :: w ++ tail) ->
  data = data0.
Proof.
  intros Hd Hw Ht Hin.
  apply in_app_or in Hin as [Hin|[Heq|Hin]].
  - apply (discovery_calls d Hd) in Hin. discriminate.
  - now injection Heq.
  - apply in_app_or in Hin as [Hin|Hin].
    + apply Hw in Hin. discriminate.
    + apply Ht in Hin. discriminate.
Qed.

(** A session that read the firmware payload [data]: the answers of the
    discovery, and the calls in the order firmware read, writes of the gate,
    sensor read. *)
Lemma onPeripheralConnected_shape {St : Type} (p : Peripheral St) (s0 s' : St)
    (r : Readings + option error) (made : list Call)
    (cF : Characteristic) (data : list byte) :
  onPeripheralConnected p (s0, []) = (r, (s', made)) ->
  In (CallReadCharacteristic cF (Ok data)) made ->
  exists services s1 answers s2 d c0 w tail,
    DiscoverServices p s0 = (Ok services, s1)
    /\ Discovered p services s1 answers s2
    /\ Forall (fun c => is_discovery c = true) d
    /\ made = d ++ CallReadCharacteristic c0 (Ok data) :: w ++ tail
    /\ (tail = [] \/ exists cR res, tail = [CallReadLongCharacteristic cR res])
    /\ (string_gt (FirmwareVersion (decodeFirmwareData data Readings_zero)) "2.6.6" = false ->
        w = [])
    /\ (string_gt (FirmwareVersion (decodeFirmwareData data Readings_zero)) "2.6.6" = true ->
        match cRealtimeData
                (fold_left (fun h cs => fold_left selectCharacteristic cs h)
                   answers noHandles) with
        | None => w = [] /\ tail = [] /\ r = inr (Some RealtimeSwitchNotFound)
        | Some c => w = [CallWriteCharacteristic c realtimeCommand false]
        end).
Proof.
  intros H Hin. unfold onPeripheralConnected in H.
  unfold mbind at 1 in H. unfold Session_bind at 1 in H.
  unfold callDiscoverServices in H.
  destruct (DiscoverServices p s0) as [[services|msg] s1] eqn:Hs; cbn [app] in H.
  2:{ injection H as <- <- <-. destruct Hin as [Hin|[]]. discriminate. }
  unfold mbind at 1 in H. unfold Session_bind at 1 in H.
  destruct (discoverLoop_spec p services noHandles s1 [CallDiscoverServices])
    as (disc & rl & s2 & E & Hdisc & _).
  assert (Hd : Forall (fun c => is_discovery c = true) ([CallDiscoverServices] ++ disc))
    by (constructor; [reflexivity|exact Hdisc]).
  rewrite E in H. destruct rl as [h|e].
  2:{ injection H as <- <- <-.
      apply (discovery_calls _ Hd) in Hin. discriminate. }
  destruct (discoverLoop_answers _ _ _ _ _ _ _ _ E) as (answers & HD & Hh).
  clear E. set (d := [CallDiscoverServices] ++ disc) in *. clearbody d.
  destruct (cFirmware h) as [c0|].
  2:{ injection H as <- <- <-.
      apply (discovery_calls _ Hd) in Hin. discriminate. }
  unfold mbind at 1 in H. unfold Session_bind at 1 in H.
  unfold callReadCharacteristic in H.
  destruct (ReadCharacteristic p c0 s2) as [[data0|msg] s3].
  2:{ injection H as <- <- <-. apply in_app_or in Hin as [Hin|[Hin|[]]].
      - apply (discovery_calls _ Hd) in Hin. discriminate.
      - discriminate. }
  unfold mbind at 1 in H. unfold Session_bind at 1 in H.
  destruct (enableRealtime_tied p h (decodeFirmwareData data0 Readings_zero) s3
              (d ++ [CallReadCharacteristic c0 (Ok data0)]))
    as (w & g & s4 & Eg & Hold & Hnew).
  rewrite Eg in H. clear Eg.
  assert (Hw : forall x, In x w -> is_write x = true).
  { destruct (string_gt (FirmwareVersion (decodeFirmwareData data0 Readings_zero)) "2.6.6").
    - specialize (Hnew eq_refl). destruct (cRealtimeData h).
      + destruct Hnew as [-> _]. intros x [<-|[]]. reflexivity.
      + destruct Hnew as [-> _]. intros x [].
    - destruct (Hold eq_refl) as [-> _]. intros x []. }
  assert (Hfinish : forall tail : list Call,
    (tail = [] \/ exists cR res, tail = [CallReadLongCharacteristic cR res]) ->
    (forall e, g = inr e -> tail = [] /\ r = inr e) ->
    made = d ++ CallReadCharacteristic c0 (Ok data0) :: w ++ tail ->
    exists d' c0' w' tail',
      Forall (fun c => is_discovery c = true) d'
      /\ made = d' ++ CallReadCharacteristic c0' (Ok data) :: w' ++ tail'
      /\ (tail' = [] \/ exists cR res, tail' = [CallReadLongCharacteristic cR res])
      /\ (string_gt (FirmwareVersion (decodeFirmwareData data Readings_zero)) "2.6.6" = false ->
          w' = [])
      /\ (string_gt (FirmwareVersion (decodeFirmwareData data Readings_zero)) "2.6.6" = true ->
          match cRealtimeData h with
          | None => w' = [] /\ tail' = [] /\ r = inr (Some RealtimeSwitchNotFound)
          | Some c => w' = [CallWriteCharacteristic c realtimeCommand false]
          end)).
  { intros tail Htail Hres Hmade. rewrite Hmade in Hin.
    assert (data = data0) as ->.
    { apply (firmware_read_in_session d w tail cF c0 data data0 Hd Hw); [|exact Hin].
      destruct Htail as [->|(cR & res & ->)]; [intros x []|].
      intros x [<-|[]]. reflexivity. }
    exists d, c0, w, tail.
    split; [exact Hd|]. split; [exact Hmade|]. split; [exact Htail|]. split.
    - intros Hv. now destruct (Hold Hv).
    - intros Hv. specialize (Hnew Hv). destruct (cRealtimeData h) as [c|].
      + now destruct Hnew.
      + destruct Hnew as [-> Hg]. destruct (Hres _ Hg) as [-> ->].
        repeat split. }
  assert (Hgoal : forall tail : list Call,
    (tail = [] \/ exists cR res, tail = [CallReadLongCharacteristic cR res]) ->
    (forall e, g = inr e -> tail = [] /\ r = inr e) ->
    made = d ++ CallReadCharacteristic c0 (Ok data0) :: w ++ tail ->
    exists services' s1' answers s2 d c0 w tail,
      (Ok services, s1) = (Ok services', s1')
      /\ Discovered p services' s1' answers s2
      /\ Forall (fun c => is_discovery c = true) d
      /\ made = d ++ CallReadCharacteristic c0 (Ok data) :: w ++ tail
      /\ (tail = [] \/ exists cR res, tail = [CallReadLongCharacteristic cR res])
      /\ (string_gt (FirmwareVersion (decodeFirmwareData data Readings_zero)) "2.6.6" = false ->
          w = [])
      /\ (string_gt (FirmwareVersion (decodeFirmwareData data Readings_zero)) "2.6.6" = true ->
          match cRealtimeData
                  (fold_left (fun h cs => fold_left selectCharacteristic cs h)
                     answers noHandles) with
          | None => w = [] /\ tail = [] /\ r = inr (Some RealtimeSwitchNotFound)
          | Some c => w = [CallWriteCharacteristic c realtimeCommand false]
          end)).
  { intros tail Htail Hres Hmade.
    destruct (Hfinish tail Htail Hres Hmade) as (d' & c0' & w' & tail' & F).
    exists services, s1, answers, s2, d', c0', w', tail'. rewrite <- Hh.
    split; [reflexivity|]. split; [exact HD|]. exact F. }
  clear Hfinish Hold Hnew Hin.
  destruct g as [[]|e].
  - destruct (cReadings h) as [cR|].
    + unfold mbind, Session_bind, callReadLongCharacteristic in H.
      destruct (ReadLongCharacteristic p cR s4) as [[sdata|msg] s5];
        injection H as <- <- <-;
        (eapply Hgoal; cycle 2;
         [rewrite <- !app_assoc; reflexivity|right; eauto|intros e' [=]]).
    + injection H as <- <- <-.
      apply (Hgoal []); [now left|intros e' [=]|].
      rewrite <- app_assoc, app_nil_r. reflexivity.
  - injection H as <- <- <-.
    apply (Hgoal []); [now left|intros e' [= <-]; now split|].
    rewrite <- app_assoc, app_nil_r. reflexivity.
Qed.

(** The answers are determined by the peripheral, the services and the state. *)
Lemma Discovered_deterministic {St : Type} (p : Peripheral St)
    (services : list Service) (s s1 s2 : St) (a1 a2 : list (list Characteristic)) :
  Discovered p services s a1 s1 -> Discovered p services s a2 s2 ->
  a1 = a2 /\ s1 = s2.
Proof.
  intros H1. revert a2 s2.
  induction H1 as [s|service rest s answers s' Hu _ IH
                   |service rest s cs s1' answers s' Hu Hd _ IH];
    intros a2 s2 H2; inversion H2; subst; try congruence.
  - now split.
  - now apply IH.
  - match goal with
    | H : DiscoverCharacteristics p service s = _ |- _ =>
        rewrite Hd in H; injection H as <- <-
    end.
    match goal with
    | H : Discovered p rest s1' _ _ |- _ => destruct (IH _ _ H) as [-> ->]
    end.
    now split.
Qed.

(** * Properties of the decoders *)

Ltac ten_bytes data H :=
  do 10 (destruct data as [|? data]; [discriminate H|]);
  destruct data; [clear H|discriminate H].

(** C1: on every 10-byte payload [decodeSensorData] reads the little-endian
    record [temp:i16][reserved:1][light:u16][reserved:2][moisture:u8]
    [conductivity:u16]: the temperature is the binary64 quotient of [temp] by
    10, within [2^-42] of the exact tenth, and light, moisture and
    conductivity are taken as they are; the fixture of the specification
    decodes to 20.6, 400, 40 and 232. *)
Theorem C1_decodeSensorData_layout (data : list byte) (rd : Readings) :
  length data = 10%nat ->
  let rd' := decodeSensorData data rd in
  (exists t l m c,
      i16le_at 0 data = Some t /\ u16le_at 3 data = Some l /\
      u8_at 7 data = Some m /\ u16le_at 8 data = Some c /\
      Temperature rd' = PrimFloat.div (float64_of_int16 t) 10%float /\
      (Qabs (float64_to_Q (Temperature rd') - (t # 10)) <= 1 # (2 ^ 42))%Q /\
      Light rd' = l /\ Moisture rd' = m /\ Conductivity rd' = c) /\
  (data = sensor_fixture ->
     Temperature rd' = temperature_fixture /\ Light rd' = 400 /\
     Moisture rd' = 40 /\ Conductivity rd' = 232).
Proof.
  intros Hlen rd'. subst rd'. rewrite decodeSensorData_eq. split.
  - ten_bytes data Hlen.
    eexists _, _, _, _. repeat split; try reflexivity.
    apply temperature_accurate.
  - intros ->. vm_compute. repeat split; reflexivity.
Qed.

Lemma C1_decodeSensorData_layout_witness :
  Temperature (decodeSensorData sensor_fixture Readings_zero) = temperature_fixture
  /\ Light (decodeSensorData sensor_fixture Readings_zero) = 400
  /\ Moisture (decodeSensorData sensor_fixture Readings_zero) = 40
  /\ Conductivity (decodeSensorData sensor_fixture Readings_zero) = 232.
Proof.
  exact (proj2 (C1_decodeSensorData_layout sensor_fixture Readings_zero eq_refl) eq_refl).
Defined.

(** C8: on every payload of at least 2 bytes [decodeFirmwareData] sets the
    battery level to the unsigned value of byte 0 and the firmware version to
    the bytes from offset 2 onward, read as text; the fixture of the
    specification decodes to battery level 64 and version "2.6.6". *)
Theorem C8_decodeFirmwareData_layout (data : list byte) (rd : Readings) :
  (2 <= length data)%nat ->
  let rd' := decodeFirmwareData data rd in
  (exists b0, data !! 0%nat = Some b0 /\ BatteryLevel rd' = byte_val b0) /\
  FirmwareVersion rd' = String.string_of_list_byte (skipn 2 data) /\
  (data = firmware_fixture ->
     BatteryLevel rd' = 64 /\ FirmwareVersion rd' = "2.6.6").
Proof.
  intros Hlen rd'. subst rd'. rewrite decodeFirmwareData_eq.
  split; [|split].
  - destruct data as [|b0 data]; [cbn in Hlen; lia|].
    exists b0. split; reflexivity.
  - reflexivity.
  - intros ->. split; reflexivity.
Qed.

Lemma C8_decodeFirmwareData_layout_witness :
  BatteryLevel (decodeFirmwareData firmware_fixture Readings_zero) = 64
  /\ FirmwareVersion (decodeFirmwareData firmware_fixture Readings_zero) = "2.6.6".
Proof.
  refine (proj2 (proj2 (C8_decodeFirmwareData_layout firmware_fixture Readings_zero _)) eq_refl).
  cbn. lia.
Defined.

(** C9: for every 10-byte sensor payload, re-encoding the decoded fields
    (the temperature multiplied by 10 and truncated to a signed 16-bit
    integer, the other three verbatim) gives back the bytes of the payload
    outside the reserved positions. *)
Theorem C9_decode_reencode (data : list byte) (rd : Readings) :
  length data = 10%nat ->
  spec_reencode (decodeSensorData data rd) = Some (non_reserved data).
Proof.
  intros Hlen. ten_bytes data Hlen. rewrite decodeSensorData_ten.
  unfold spec_reencode. cbn [Temperature Light Moisture Conductivity].
  rewrite temperature_times_10. cbn [mbind option_bind].
  rewrite put_i16le_i16le, !put_u16le_u16le, byte_of_Z_byte_val. reflexivity.
Qed.

Lemma C9_decode_reencode_witness :
  spec_reencode (decodeSensorData sensor_fixture Readings_zero)
  = Some (non_reserved sensor_fixture).
Proof.
  exact (C9_decode_reencode sensor_fixture Readings_zero eq_refl).
Defined.

(** C10: the two decoders write disjoint fields of the record:
    [decodeSensorData] leaves the firmware version and the battery level as
    they were, [decodeFirmwareData] leaves temperature, light, moisture and
    conductivity as they were, so the firmware results survive a sensor decode
    run after the firmware decode. *)
Theorem C10_decoders_disjoint_fields (fdata sdata : list byte) (rd : Readings) :
  (FirmwareVersion (decodeSensorData sdata rd) = FirmwareVersion rd
   /\ BatteryLevel (decodeSensorData sdata rd) = BatteryLevel rd)
  /\ (Temperature (decodeFirmwareData fdata rd) = Temperature rd
      /\ Light (decodeFirmwareData fdata rd) = Light rd
      /\ Moisture (decodeFirmwareData fdata rd) = Moisture rd
      /\ Conductivity (decodeFirmwareData fdata rd) = Conductivity rd)
  /\ (FirmwareVersion (decodeSensorData sdata (decodeFirmwareData fdata rd))
        = FirmwareVersion (decodeFirmwareData fdata rd)
      /\ BatteryLevel (decodeSensorData sdata (decodeFirmwareData fdata rd))
        = BatteryLevel (decodeFirmwareData fdata rd)).
Proof.
  rewrite !decodeSensorData_eq, !decodeFirmwareData_eq.
  repeat split; reflexivity.
Qed.

(** * Properties of sessions, discovery and the poll tick *)

(** C2, as stated, fails: the device answers the firmware read with one byte
    and the sensor read with nine, and [FetchReadings] returns a [Readings]
    value and a nil error, not [MalformedPayload]. *)
Lemma C2_short_payloads_yield_no_error :
  (length short_firmware < 2)%nat /\ (length short_sensor < 10)%nat
  /\ FetchReadings dev_short tt =
       Some {| out := Some {| FirmwareVersion := ""; BatteryLevel := 64;
                              Temperature := temperature_fixture;
                              Moisture := 40; Light := 400; Conductivity := 0 |};
               errOut := None;
               after := tt;
               calls := [CallDiscoverServices;
                         CallDiscoverCharacteristics floraService;
                         CallReadCharacteristic chFirmware (Ok short_firmware);
                         CallReadLongCharacteristic chReadings (Ok short_sensor);
                         CallCancelConnection] |}.
Proof.
  split; [cbn; lia|]. split; [cbn; lia|]. vm_compute. reflexivity.
Qed.

(** C2, amended: the decoders have no error result. On a firmware payload
    shorter than 2 bytes [decodeFirmwareData] sets the battery level to byte 0
    (to 0 on the empty payload) and the firmware version to the empty string;
    on a sensor payload shorter than 10 bytes [decodeSensorData] sets the
    conductivity to 0 and each of temperature, light and moisture from its
    bytes when they are all present, to 0 otherwise; and no [FetchReadings]
    ends with the error [MalformedPayload]. *)
Theorem C2_short_payloads_decode_to_zero_values (fdata sdata : list byte)
    (rd : Readings) :
  (length fdata < 2)%nat -> (length sdata < 10)%nat ->
  decodeFirmwareData fdata rd =
    {| FirmwareVersion := "";
       BatteryLevel := default 0 (u8_at 0 fdata);
       Temperature := Temperature rd; Moisture := Moisture rd;
       Light := Light rd; Conductivity := Conductivity rd |}
  /\ decodeSensorData sdata rd =
       {| FirmwareVersion := FirmwareVersion rd;
          BatteryLevel := BatteryLevel rd;
          Temperature := PrimFloat.div (float64_of_int16 (default 0 (i16le_at 0 sdata))) 10%float;
          Moisture := default 0 (u8_at 7 sdata);
          Light := default 0 (u16le_at 3 sdata);
          Conductivity := 0 |}
  /\ (forall (St : Type) (dev : Device St) (s : St) (f : Fetched St),
        FetchReadings dev s = Some f -> errOut f <> Some MalformedPayload).
Proof.
  intros Hf Hs. split; [|split].
  - rewrite decodeFirmwareData_eq, drop_ge by lia. reflexivity.
  - rewrite decodeSensorData_eq. unfold u16le_at at 2.
    destruct (sdata !! 8%nat); [|reflexivity].
    rewrite (lookup_ge_None_2 sdata 9) by lia. reflexivity.
  - intros St dev s f H.
    apply (Outcome_never_malformed (calls f) (out f)).
    exact (FetchReadings_outcome dev s f H).
Qed.

Lemma C2_short_payloads_decode_to_zero_values_witness :
  decodeFirmwareData short_firmware Readings_zero =
    {| FirmwareVersion := ""; BatteryLevel := 64; Temperature := 0%float;
       Moisture := 0; Light := 0; Conductivity := 0 |}
  /\ Conductivity (decodeSensorData short_sensor Readings_zero) = 0.
Proof.
  assert (Hf : (length short_firmware < 2)%nat) by (cbn; lia).
  assert (Hs : (length short_sensor < 10)%nat) by (cbn; lia).
  destruct (C2_short_payloads_decode_to_zero_values
              short_firmware short_sensor Readings_zero Hf Hs) as (E1 & E2 & _).
  split; [exact E1|]. rewrite E2. reflexivity.
Defined.

(** C3, as stated, fails: the sensor payload of this device stops after four
    bytes, so moisture and conductivity are not in it, yet [FetchReadings]
    returns a [Readings] value (with zeros in their place) and a nil error. *)
Lemma C3_partly_decoded_readings_returned :
  u8_at 7 (firstn 4 sensor_fixture) = None
  /\ u16le_at 8 (firstn 4 sensor_fixture) = None
  /\ FetchReadings dev_truncated tt =
       Some {| out := Some {| FirmwareVersion := "2.6.6"; BatteryLevel := 64;
                              Temperature := temperature_fixture;
                              Moisture := 0; Light := 0; Conductivity := 0 |};
               errOut := None;
               after := tt;
               calls := [CallDiscoverServices;
                         CallDiscoverCharacteristics floraService;
                         CallReadCharacteristic chFirmware (Ok firmware_fixture);
                         CallReadLongCharacteristic chReadings (Ok (firstn 4 sensor_fixture));
                         CallCancelConnection] |}.
Proof.
  split; [reflexivity|]. split; [reflexivity|]. vm_compute. reflexivity.
Qed.

(** C3, amended: [FetchReadings] returns a [Readings] value only together
    with a nil error and only after both payloads were read and both decoders
    ran: the value is the record that the two decoders make of the two
    payloads, where a field whose bytes a payload does not hold is zero (the
    version empty). Whenever it returns an error it returns no [Readings]. *)
Theorem C3_readings_only_after_both_decodes {St : Type} (dev : Device St)
    (s : St) (f : Fetched St) :
  FetchReadings dev s = Some f ->
  (forall e, errOut f = Some e -> out f = None)
  /\ (forall rd, out f = Some rd ->
        errOut f = None
        /\ exists cF fdata cR sdata,
            In (CallReadCharacteristic cF (Ok fdata)) (calls f)
            /\ In (CallReadLongCharacteristic cR (Ok sdata)) (calls f)
            /\ rd = decodeSensorData sdata (decodeFirmwareData fdata Readings_zero)
            /\ rd = {| FirmwareVersion := String.string_of_list_byte (skipn 2 fdata);
                       BatteryLevel := default 0 (u8_at 0 fdata);
                       Temperature :=
                         PrimFloat.div (float64_of_int16 (default 0 (i16le_at 0 sdata))) 10%float;
                       Moisture := default 0 (u8_at 7 sdata);
                       Light := default 0 (u16le_at 3 sdata);
                       Conductivity := default 0 (u16le_at 8 sdata) |}).
Proof.
  intros H. apply FetchReadings_outcome in H. split.
  - intros e He. rewrite He in H. exact (Outcome_error_no_readings _ _ _ H).
  - intros rd Hrd. rewrite Hrd in H.
    destruct (Outcome_readings _ _ _ H)
      as (He & disc & cF & fdata & w & cR & sdata & Hcalls & ->).
    split; [exact He|]. exists cF, fdata, cR, sdata. rewrite Hcalls.
    split; [|split; [|split]].
    + apply in_or_app. right. now left.
    + apply in_or_app. right. right. apply in_or_app. right. now left.
    + reflexivity.
    + rewrite decodeSensorData_eq, decodeFirmwareData_eq. reflexivity.
Qed.

Lemma C3_readings_only_after_both_decodes_witness :
  errOut fetched_fixture = None
  /\ exists cF fdata cR sdata,
      In (CallReadCharacteristic cF (Ok fdata)) (calls fetched_fixture)
      /\ In (CallReadLongCharacteristic cR (Ok sdata)) (calls fetched_fixture)
      /\ readings_fixture = decodeSensorData sdata (decodeFirmwareData fdata Readings_zero)
      /\ readings_fixture =
           {| FirmwareVersion := String.string_of_list_byte (skipn 2 fdata);
              BatteryLevel := default 0 (u8_at 0 fdata);
              Temperature :=
                PrimFloat.div (float64_of_int16 (default 0 (i16le_at 0 sdata))) 10%float;
              Moisture := default 0 (u8_at 7 sdata);
              Light := default 0 (u16le_at 3 sdata);
              Conductivity := default 0 (u16le_at 8 sdata) |}.
Proof.
  exact (proj2 (C3_readings_only_after_both_decodes dev_fixture tt fetched_fixture eq_refl)
           readings_fixture eq_refl).
Defined.

(** C4, as stated, fails: the firmware version "3.1.8" is greater than
    "2.6.6", but the device offers no realtime data switch, and the session
    ends with an error without any write. *)
Lemma C4_no_switch_no_write :
  FirmwareVersion (decodeFirmwareData firmware_318 Readings_zero) = "3.1.8"
  /\ string_gt "3.1.8" "2.6.6" = true
  /\ FetchReadings dev_318_no_switch tt = Some fetched_318_no_switch
  /\ List.filter is_write (calls fetched_318_no_switch) = [].
Proof.
  repeat split; vm_compute; reflexivity.
Qed.

(** C4, amended: in every session that read the firmware payload, if the
    decoded version is "2.6.6" or lower in the byte-wise lexicographic order
    (so is "2.10.0"), no write is issued. If it is greater and the realtime
    data switch was discovered, that is, one of the characteristic lists that
    the peripheral returned for a sensor service holds a characteristic with
    the handle 0x33, the two-byte command is written exactly once, to such a
    characteristic, and no sensor read precedes the write. If it is greater
    and the switch was not discovered, the session ends with the error that
    the switch was not found, with no write and no sensor read. *)
Theorem C4_realtime_write_gated_by_version {St : Type} (dev : Device St) (s : St)
    (f : Fetched St) (cF : Characteristic) (data : list byte) :
  FetchReadings dev s = Some f ->
  In (CallReadCharacteristic cF (Ok data)) (calls f) ->
  let v := FirmwareVersion (decodeFirmwareData data Readings_zero) in
  string_gt "2.6.6" "2.6.6" = false /\ string_gt "2.10.0" "2.6.6" = false
  /\ length realtimeCommand = 2%nat
  /\ exists s0 services s1 answers s2,
      Connect (peripheral dev) s = Some s0
      /\ DiscoverServices (peripheral dev) s0 = (Ok services, s1)
      /\ Discovered (peripheral dev) services s1 answers s2
      /\ (string_gt v "2.6.6" = false -> List.filter is_write (calls f) = [])
      /\ (string_gt v "2.6.6" = true -> switch_offered answers ->
            exists before c rest,
              VHandle c = vHandleRealtimeData
              /\ calls f = before ++ CallWriteCharacteristic c realtimeCommand false :: rest
              /\ List.filter is_write before = []
              /\ List.filter is_sensor_read before = []
              /\ List.filter is_write rest = [])
      /\ (string_gt v "2.6.6" = true -> ~ switch_offered answers ->
            errOut f = Some RealtimeSwitchNotFound
            /\ List.filter is_write (calls f) = []
            /\ List.filter is_sensor_read (calls f) = []).
Proof.
  intros H Hin v. subst v.
  split; [reflexivity|]. split; [reflexivity|]. split; [reflexivity|].
  unfold FetchReadings in H.
  destruct (Connect (peripheral dev) s) as [s0|] eqn:Hc; [|discriminate].
  destruct (onPeripheralConnected (peripheral dev) (s0, [])) as [r [s' made]] eqn:E.
  assert (Hcalls : calls f = made ++ [CallCancelConnection]
                   /\ errOut f = match r with inl _ => None | inr e => e end).
  { injection H as <-. destruct r; split; reflexivity. }
  destruct Hcalls as [Hcalls Herr]. rewrite Hcalls in Hin |- *. clear H.
  apply in_app_or in Hin as [Hin|[Hin|[]]]; [|discriminate].
  destruct (onPeripheralConnected_shape _ _ _ _ _ _ _ E Hin)
    as (services & s1 & answers & s2 & d & c0 & w & tail
        & Hs & HD & Hd & -> & Htail & Hold & Hnew).
  exists s0, services, s1, answers, s2.
  split; [reflexivity|]. split; [exact Hs|]. split; [exact HD|].
  destruct (discovery_calls d Hd) as (Hdw & Hds & _).
  destruct (cRealtimeData_answers answers noHandles) as [Hoffer Hhandle].
  assert (Htw : List.filter is_write tail = [])
    by (destruct Htail as [->|(cR & res & ->)]; reflexivity).
  split; [|split].
  - intros Hv. rewrite (Hold Hv).
    rewrite !List.filter_app, Hdw. cbn [app List.filter is_write].
    rewrite Htw. reflexivity.
  - intros Hv Hoff. specialize (Hnew Hv).
    assert (Hsome : is_Some (cRealtimeData
              (fold_left (fun h cs => fold_left selectCharacteristic cs h)
                 answers noHandles)))
      by (apply Hoffer; now right).
    destruct Hsome as [c Hsome]. rewrite Hsome in Hnew. subst w.
    exists (d ++ [CallReadCharacteristic c0 (Ok data)]), c,
      (tail ++ [CallCancelConnection]).
    split; [|split; [|split; [|split]]].
    + destruct (Hhandle c Hsome) as [[=]|Hh]. exact Hh.
    + rewrite <- !app_assoc. reflexivity.
    + rewrite List.filter_app, Hdw. reflexivity.
    + rewrite List.filter_app, Hds. reflexivity.
    + rewrite List.filter_app, Htw. reflexivity.
  - intros Hv Hoff. specialize (Hnew Hv).
    destruct (cRealtimeData
                (fold_left (fun h cs => fold_left selectCharacteristic cs h)
                   answers noHandles)) as [c|] eqn:Hsome.
    + exfalso. apply Hoff.
      destruct (proj1 Hoffer (ex_intro _ c eq_refl)) as [[x [=]]|Ho]. exact Ho.
    + destruct Hnew as (-> & -> & ->). split; [exact Herr|].
      rewrite !List.filter_app, Hdw, Hds. split; reflexivity.
Qed.

Lemma C4_realtime_write_gated_by_version_witness :
  string_gt "2.6.6" "2.6.6" = false /\ string_gt "2.10.0" "2.6.6" = false
  /\ length realtimeCommand = 2%nat
  /\ exists s0 services s1 answers s2,
      Connect (peripheral dev_318) tt = Some s0
      /\ DiscoverServices (peripheral dev_318) s0 = (Ok services, s1)
      /\ Discovered (peripheral dev_318) services s1 answers s2
      /\ (string_gt (FirmwareVersion (decodeFirmwareData firmware_318 Readings_zero))
            "2.6.6" = false ->
          List.filter is_write (calls fetched_318) = [])
      /\ (string_gt (FirmwareVersion (decodeFirmwareData firmware_318 Readings_zero))
            "2.6.6" = true ->
          switch_offered answers ->
          exists before c rest,
            VHandle c = vHandleRealtimeData
            /\ calls fetched_318
               = before ++ CallWriteCharacteristic c realtimeCommand false :: rest
            /\ List.filter is_write before = []
            /\ List.filter is_sensor_read before = []
            /\ List.filter is_write rest = [])
      /\ (string_gt (FirmwareVersion (decodeFirmwareData firmware_318 Readings_zero))
            "2.6.6" = true ->
          ~ switch_offered answers ->
          errOut fetched_318 = Some RealtimeSwitchNotFound
          /\ List.filter is_write (calls fetched_318) = []
          /\ List.filter is_sensor_read (calls fetched_318) = []).
Proof.
  exact (C4_realtime_write_gated_by_version dev_318 tt fetched_318
           chFirmware firmware_318 eq_refl
           (or_intror (or_intror (or_introl eq_refl)))).
Defined.

(** C5 at a concrete roster: the device of the fixtures is polled, its fetch
    succeeds, the readings are logged, and the tick ends without any write to
    the store. The source has the write commented out. *)
Theorem C5_successful_fetch_is_only_logged :
  FetchReadings dev_fixture tt = Some fetched_fixture
  /\ pollTick [dev_fixture] tt =
       ([Polled "C4:7C:8D:00:00:01" (calls fetched_fixture);
         LoggedReadings "C4:7C:8D:00:00:01" (Some readings_fixture)],
        Some tt)
  /\ sink_writes (fst (pollTick [dev_fixture] tt)) = []
  /\ forall (St : Type) (devices : list (Device St)) (s : St),
       sink_writes (fst (pollTick devices s)) = [].
Proof.
  split; [reflexivity|]. split; [reflexivity|]. split; [reflexivity|].
  intros St devices s. apply pollTick_no_sink_write.
Qed.

(** C6: for every set of advertisements, every configuration mapping and
    every timeout, a device whose configuration has [Ignore] set is not in the
    roster that [Discover] returns, advertising or not. *)
Theorem C6_ignored_device_not_in_roster {St : Type} (newDevice : option string)
    (scan : Z -> list (Peripheral St)) (timeout : Z)
    (confMap : gmap string Config) (logger : LoggerEntry)
    (id : string) (conf : Config) :
  confMap !! id = Some conf -> Ignore conf = true ->
  ~ In id (map GetID (fst (Discover newDevice scan timeout confMap logger))).
Proof.
  intros Hconf Hign Hin.
  apply in_map_iff in Hin as (dev & Hid & Hdev).
  pose proof (Discover_not_ignored newDevice scan timeout confMap logger) as H.
  rewrite Forall_forall in H.
  specialize (H dev (proj2 (list_elem_of_In _ _) Hdev) conf).
  rewrite Hid in H. specialize (H Hconf). congruence.
Qed.

Lemma C6_ignored_device_not_in_roster_witness :
  In "C4:7C:8D:00:00:02" (map ID (exampleScan 10000000000))
  /\ map GetID (fst (Discover None exampleScan 10000000000 exampleConfMap ∅))
     = ["C4:7C:8D:00:00:01"; "C4:7C:8D:00:00:04"]
  /\ ~ In "C4:7C:8D:00:00:02"
        (map GetID (fst (Discover None exampleScan 10000000000 exampleConfMap ∅))).
Proof.
  split; [right; left; reflexivity|]. split; [vm_compute; reflexivity|].
  apply (C6_ignored_device_not_in_roster None exampleScan 10000000000
           exampleConfMap ∅ "C4:7C:8D:00:00:02" (mkConfig "" true)).
  - vm_compute. reflexivity.
  - reflexivity.
Defined.

(** C7: when the devices before [d] have been polled and [FetchReadings]
    fails for [d], the tick logs the error and goes on exactly as a tick over
    the devices after [d], from the state that the failed fetch left. A tick
    comes to its end whenever every peripheral of the roster connects, and a
    tick that comes to its end has polled every device of the roster, in
    order, however many fetches failed. *)
Theorem C7_failed_fetch_does_not_abort_tick {St : Type}
    (pre post : list (Device St)) (d : Device St) (s s1 : St)
    (evs : list TickEvent) (f : Fetched St) (err : error) :
  pollTick pre s = (evs, Some s1) ->
  FetchReadings d s1 = Some f -> errOut f = Some err ->
  pollTick (pre ++ d :: post) s =
    (evs ++ Polled (GetID d) (calls f) :: LoggedError (GetID d) err
         :: fst (pollTick post (after f)),
     snd (pollTick post (after f)))
  /\ ((forall d' s0, In d' post -> is_Some (Connect (peripheral d') s0)) ->
      is_Some (snd (pollTick (pre ++ d :: post) s)))
  /\ (forall s', snd (pollTick (pre ++ d :: post) s) = Some s' ->
        polled_ids (fst (pollTick (pre ++ d :: post) s))
        = map GetID pre ++ GetID d :: map GetID post).
Proof.
  intros Hpre Hf Herr.
  assert (E : pollTick (pre ++ d :: post) s =
                (evs ++ Polled (GetID d) (calls f) :: LoggedError (GetID d) err
                     :: fst (pollTick post (after f)),
                 snd (pollTick post (after f)))).
  { rewrite (pollTick_app pre (d :: post) s s1 evs Hpre).
    rewrite (pollTick_cons_returned d post s1 f Hf), Herr. reflexivity. }
  split; [exact E|]. split.
  - intros Hconn. rewrite E. cbn [snd]. now apply pollTick_returns.
  - intros s' Hs'.
    destruct (pollTick (pre ++ d :: post) s) as [evs' r] eqn:E'.
    cbn [fst snd] in *. subst r.
    rewrite (pollTick_polls_all _ _ _ _ E'), map_app. reflexivity.
Qed.

Lemma C7_failed_fetch_does_not_abort_tick_witness :
  pollTick ([dev_fixture] ++ dev_318_no_switch :: [dev_318]) tt =
    ([Polled "C4:7C:8D:00:00:01" (calls fetched_fixture);
      LoggedReadings "C4:7C:8D:00:00:01" (Some readings_fixture)]
       ++ Polled (GetID dev_318_no_switch) (calls fetched_318_no_switch)
       :: LoggedError (GetID dev_318_no_switch) RealtimeSwitchNotFound
       :: fst (pollTick [dev_318] (after fetched_318_no_switch)),
     snd (pollTick [dev_318] (after fetched_318_no_switch))).
Proof.
  exact (proj1 (C7_failed_fetch_does_not_abort_tick
                  [dev_fixture] [dev_318] dev_318_no_switch tt tt
                  [Polled "C4:7C:8D:00:00:01" (calls fetched_fixture);
                   LoggedReadings "C4:7C:8D:00:00:01" (Some readings_fixture)]
                  fetched_318_no_switch RealtimeSwitchNotFound
                  eq_refl eq_refl eq_refl)).
Defined.

(** * Further properties of the code *)

(** X1: every [FetchReadings] that returns has cancelled the connection, on
    every path through the handler: the cancellation is its last call on the
    peripheral, and its only one. *)
Theorem X1_connection_always_cancelled {St : Type} (dev : Device St) (s : St)
    (f : Fetched St) :
  FetchReadings dev s = Some f ->
  exists made,
    calls f = made ++ [CallCancelConnection]
    /\ List.filter is_cancel made = [].
Proof.
  intros H. apply FetchReadings_outcome in H.
  assert (Hdisc : forall disc, Forall (fun c => is_discovery c = true) disc ->
                               List.filter is_cancel disc = []).
  { intros disc Hd. induction Hd as [|c l Hc _ IH]; [reflexivity|].
    destruct c; try discriminate; exact IH. }
  destruct H as [|disc msg Hd|disc Hd|disc c msg Hd|disc c data w e Hd Hg
                 |disc c data w tail o e Hd Hg Hs].
  - now exists [CallDiscoverServices].
  - exists disc. split; [reflexivity|]. now apply Hdisc.
  - exists disc. split; [reflexivity|]. now apply Hdisc.
  - exists (disc ++ [CallReadCharacteristic c (Err msg)]).
    rewrite <- app_assoc. split; [reflexivity|].
    rewrite List.filter_app, (Hdisc disc Hd). reflexivity.
  - exists (disc ++ CallReadCharacteristic c (Ok data) :: w).
    rewrite <- app_assoc. split; [reflexivity|].
    rewrite List.filter_app, (Hdisc disc Hd). cbn [app List.filter is_cancel].
    inversion Hg; reflexivity.
  - exists (disc ++ CallReadCharacteristic c (Ok data) :: w ++ tail).
    rewrite <- !app_assoc. cbn [app]. rewrite <- app_assoc.
    split; [reflexivity|].
    rewrite List.filter_app, (Hdisc disc Hd). cbn [app List.filter is_cancel].
    rewrite List.filter_app.
    destruct Hs; inversion Hg; reflexivity.
Qed.

Lemma X1_connection_always_cancelled_witness :
  exists made,
    calls fetched_318_no_switch = made ++ [CallCancelConnection]
    /\ List.filter is_cancel made = [].
Proof.
  exact (X1_connection_always_cancelled dev_318_no_switch tt
           fetched_318_no_switch eq_refl).
Defined.

(** X2: a scan in which no advertised name is one of [floraDeviceNames] gives
    an empty roster and no error, whatever the timeout and the configuration. *)
Theorem X2_no_matching_advertisement_empty_roster {St : Type}
    (scan : Z -> list (Peripheral St)) (timeout : Z)
    (confMap : gmap string Config) (logger : LoggerEntry) :
  (forall p, In p (scan timeout) -> floraDeviceNames !! Name p = None) ->
  Discover None scan timeout confMap logger = ([], None).
Proof.
  intros H. unfold Discover. f_equal.
  induction (scan timeout) as [|p ps IH]; [reflexivity|].
  cbn [fold_left]. unfold onPeripheralDiscovered at 2.
  rewrite (H p (or_introl eq_refl)). apply IH.
  intros q Hq. apply H. now right.
Qed.

Lemma X2_no_matching_advertisement_empty_roster_witness :
  Discover None
    (fun _ => [examplePeripheral "Thermometer" "AA:BB:CC:00:00:09" [] [] []])
    10000000000 exampleConfMap ∅ = ([], None).
Proof.
  apply (X2_no_matching_advertisement_empty_roster
           (fun _ => [examplePeripheral "Thermometer" "AA:BB:CC:00:00:09" [] [] []])
           10000000000 exampleConfMap ∅).
  intros p [<-|[]]. vm_compute. reflexivity.
Defined.

(** X3: a device found by [Discover] carries the alias of its configuration
    entry, and [GetName] gives that alias whenever it is not empty, the
    identifier otherwise. *)
Theorem X3_alias_overrides_identifier {St : Type} (newDevice : option string)
    (scan : Z -> list (Peripheral St)) (timeout : Z)
    (confMap : gmap string Config) (logger : LoggerEntry) (dev : Device St) :
  In dev (fst (Discover newDevice scan timeout confMap logger)) ->
  DeviceAlias dev = default "" (Alias <$> confMap !! GetID dev)
  /\ (DeviceAlias dev <> "" -> GetName dev = DeviceAlias dev)
  /\ (DeviceAlias dev = "" -> GetName dev = GetID dev).
Proof.
  intros Hin. split.
  2:{ unfold GetName. destruct (String.eqb_spec (DeviceAlias dev) ""); split;
        intros; congruence. }
  assert (H : Forall (fun dev : Device St =>
                        DeviceAlias dev = default "" (Alias <$> confMap !! GetID dev))
                (fst (Discover newDevice scan timeout confMap logger))).
  { unfold Discover. destruct newDevice; [constructor|]. cbn [fst].
    generalize (scan timeout). intros ps.
    assert (G : forall roster : list (Device St),
      Forall (fun dev : Device St =>
                DeviceAlias dev = default "" (Alias <$> confMap !! GetID dev)) roster ->
      Forall (fun dev : Device St =>
                DeviceAlias dev = default "" (Alias <$> confMap !! GetID dev))
        (fold_left (onPeripheralDiscovered confMap logger) ps roster)).
    { induction ps as [|p ps IH]; intros roster Hr; [exact Hr|].
      cbn [fold_left]. apply IH. unfold onPeripheralDiscovered.
      destruct (floraDeviceNames !! Name p); [|exact Hr].
      destruct (confMap !! ID p) as [conf|] eqn:Hconf.
      - destruct (Ignore conf); [exact Hr|].
        apply Forall_app. split; [exact Hr|]. constructor; [|constructor].
        destruct (String.eqb (Alias conf) "") eqn:Ha;
          unfold GetID; cbn [peripheral DeviceAlias]; rewrite Hconf; cbn.
        + apply String.eqb_eq in Ha. now rewrite Ha.
        + reflexivity.
      - apply Forall_app. split; [exact Hr|]. constructor; [|constructor].
        unfold GetID. cbn [peripheral DeviceAlias]. now rewrite Hconf. }
    apply G. constructor. }
  rewrite Forall_forall in H. apply H. now apply list_elem_of_In.
Qed.

Lemma X3_alias_overrides_identifier_witness :
  DeviceAlias (mkDevice (peripheral dev_fixture)
                 (WithField fldAlias "basil" (WithField fldDevice "C4:7C:8D:00:00:01" ∅))
                 "basil")
    = default "" (Alias <$> exampleConfMap !! "C4:7C:8D:00:00:01")
  /\ GetName (mkDevice (peripheral dev_fixture)
                (WithField fldAlias "basil" (WithField fldDevice "C4:7C:8D:00:00:01" ∅))
                "basil") = "basil".
Proof.
  assert (Hin : In (mkDevice (peripheral dev_fixture)
                      (WithField fldAlias "basil"
                         (WithField fldDevice "C4:7C:8D:00:00:01" ∅)) "basil")
                   (fst (Discover None exampleScan 10000000000 exampleConfMap ∅)))
    by (left; vm_compute; reflexivity).
  destruct (X3_alias_overrides_identifier None exampleScan 10000000000
              exampleConfMap ∅ _ Hin) as (Ha & Hn & _).
  split; [exact Ha|]. apply Hn. discriminate.
Defined.

(** * Further properties: configuration and stored values *)

Lemma Validate_accepts (c : Configuration) :
  Validate (Some c) = None <-> within_bounds (Collection c).
Proof.
  unfold Validate, within_bounds, Minute, Second.
  destruct (Z.ltb_spec (DiscoveryInterval (Collection c)) (60 * 1000000000));
    [split; [discriminate|lia]|].
  destruct (Z.ltb_spec (Interval (Collection c)) (60 * 1000000000));
    [split; [discriminate|lia]|].
  destruct (Z.gtb_spec (Interval (Collection c)) (DiscoveryInterval (Collection c)));
    [split; [discriminate|lia]|].
  destruct (Z.ltb_spec (DiscoveryCooldown (Collection c)) 1000000000);
    [split; [discriminate|lia]|].
  destruct (Z.ltb_spec (DiscoveryTimeout (Collection c)) (1000000000 * 5));
    [split; [discriminate|lia]|].
  split; [lia|reflexivity].
Qed.

(** X4: [Validate] accepts a configuration exactly when the discovery
    interval and the collection interval are at least a minute, the
    collection interval does not exceed the discovery interval, the cooldown
    is at least a second and the discovery timeout at least five seconds; a
    nil configuration is refused. *)
Theorem X4_Validate_accepts_exactly_the_bounds (c : Configuration) :
  (Validate (Some c) = None <-> within_bounds (Collection c))
  /\ Validate None = Some NoConfigurationProvided.
Proof.
  split; [apply Validate_accepts|reflexivity].
Qed.

(** X5: [loadConfigFile] returns a configuration only without an error, and
    only one that keeps the bounds: it is what the decoder made of the
    default configuration for the file that was opened. *)
Theorem X5_loadConfigFile_returns_valid_configuration {File : Type}
    (Open : string -> result File)
    (Decode : File -> Configuration -> result Configuration)
    (filename : string) (conf : Configuration) (err : option LoadError) :
  loadConfigFile Open Decode filename = (Some conf, err) ->
  err = None
  /\ within_bounds (Collection conf)
  /\ exists f, Open filename = Ok f /\ Decode f getDefaultConfig = Ok conf.
Proof.
  unfold loadConfigFile. intros H.
  destruct (Open filename) as [f|msg]; [|discriminate].
  destruct (Decode f getDefaultConfig) as [conf'|msg] eqn:Hd; [|discriminate].
  destruct (Validate (Some conf')) eqn:Hv; [discriminate|].
  injection H as <- <-.
  split; [reflexivity|]. split.
  - now apply Validate_accepts.
  - now exists f.
Qed.

Lemma X5_loadConfigFile_returns_valid_configuration_witness :
  None = (None : option LoadError)
  /\ within_bounds (Collection getDefaultConfig)
  /\ exists f : unit, Ok tt = Ok f /\ decode_nothing f getDefaultConfig = Ok getDefaultConfig.
Proof.
  exact (X5_loadConfigFile_returns_valid_configuration
           (fun _ => Ok tt) decode_nothing "/etc/flora2influx/flora2influx.conf"
           getDefaultConfig None eq_refl).
Defined.

(** X6: [ToInfluxValues] stores the five numeric fields under five distinct
    keys and leaves the firmware version out, so two readings with the same
    stored values and the same firmware version are the same readings. *)
Theorem X6_ToInfluxValues_keeps_every_field (r r' : Readings) :
  ToInfluxValues r = ToInfluxValues r' ->
  FirmwareVersion r = FirmwareVersion r' ->
  size (ToInfluxValues r) = 5%nat /\ r = r'.
Proof.
  intros Hm Hv. split; [vm_compute; reflexivity|].
  assert (Hb := f_equal (fun m : gmap string Value => m !! keyBatteryLevel) Hm).
  assert (Ht := f_equal (fun m : gmap string Value => m !! keyTemperature) Hm).
  assert (Hmo := f_equal (fun m : gmap string Value => m !! keyMoisture) Hm).
  assert (Hc := f_equal (fun m : gmap string Value => m !! keyConductivity) Hm).
  assert (Hl := f_equal (fun m : gmap string Value => m !! keyLight) Hm).
  vm_compute in Hb, Ht, Hmo, Hc, Hl.
  destruct r, r'. cbn in *. congruence.
Qed.

Lemma X6_ToInfluxValues_keeps_every_field_witness :
  size (ToInfluxValues readings_fixture) = 5%nat /\ readings_fixture = readings_fixture.
Proof.
  exact (X6_ToInfluxValues_keeps_every_field readings_fixture readings_fixture
           eq_refl eq_refl).
Defined.

(** * Further properties: the decoders *)

(** X7: the decoders read nothing but their fields. [decodeSensorData] gives
    the same record for two payloads that agree at the offsets 0, 1, 3, 4, 7,
    8 and 9, whatever the reserved bytes and whatever follows the tenth byte;
    [decodeFirmwareData] gives the same record for two payloads that agree in
    byte 0 and from offset 2 on, whatever byte 1 is. *)
Theorem X7_decoders_ignore_reserved_bytes (sdata sdata' fdata fdata' : list byte)
    (rd : Readings) :
  (forall i, In i [0; 1; 3; 4; 7; 8; 9]%nat -> sdata !! i = sdata' !! i) ->
  fdata !! 0%nat = fdata' !! 0%nat -> skipn 2 fdata = skipn 2 fdata' ->
  decodeSensorData sdata rd = decodeSensorData sdata' rd
  /\ decodeFirmwareData fdata rd = decodeFirmwareData fdata' rd.
Proof.
  intros Hs Hf0 Hf2. split.
  - rewrite !decodeSensorData_eq. unfold i16le_at, u16le_at, u8_at.
    rewrite (Hs 0%nat), (Hs 1%nat), (Hs 3%nat), (Hs 4%nat), (Hs 7%nat),
      (Hs 8%nat), (Hs 9%nat) by (cbn; tauto).
    reflexivity.
  - rewrite !decodeFirmwareData_eq. unfold u8_at. now rewrite Hf0, Hf2.
Qed.

Lemma X7_decoders_ignore_reserved_bytes_witness :
  decodeSensorData sensor_fixture Readings_zero
    = decodeSensorData sensor_fixture_variant Readings_zero
  /\ decodeFirmwareData firmware_fixture Readings_zero
    = decodeFirmwareData (Byte.x40 :: Byte.xff :: skipn 2 firmware_fixture) Readings_zero.
Proof.
  apply (X7_decoders_ignore_reserved_bytes sensor_fixture sensor_fixture_variant
           firmware_fixture (Byte.x40 :: Byte.xff :: skipn 2 firmware_fixture)
           Readings_zero).
  - intros i Hi. cbn in Hi.
    repeat (destruct Hi as [<-|Hi]; [reflexivity|]). destruct Hi.
  - reflexivity.
  - reflexivity.
Defined.

(** X8: the decoders compose freely. They commute; a second run of a decoder
    makes the first one forgotten; and after both decoders the record depends
    on the two payloads alone, not on what it held before. *)
Theorem X8_decoders_commute_and_overwrite (fdata fdata' sdata sdata' : list byte)
    (rd rd' : Readings) :
  decodeSensorData sdata (decodeFirmwareData fdata rd)
    = decodeFirmwareData fdata (decodeSensorData sdata rd)
  /\ decodeSensorData sdata' (decodeSensorData sdata rd) = decodeSensorData sdata' rd
  /\ decodeFirmwareData fdata' (decodeFirmwareData fdata rd) = decodeFirmwareData fdata' rd
  /\ decodeSensorData sdata (decodeFirmwareData fdata rd)
    = decodeSensorData sdata (decodeFirmwareData fdata rd').
Proof.
  rewrite !decodeSensorData_eq, !decodeFirmwareData_eq. cbn.
  repeat split; reflexivity.
Qed.

Lemma temperature_of_bounds (lo hi : byte) :
  PrimFloat.leb temperature_min (temperature_of lo hi)
  && PrimFloat.leb (temperature_of lo hi) temperature_max = true.
Proof.
  revert lo hi. apply forall_byte2. vm_compute. reflexivity.
Qed.

(** X9: whatever the payloads, the decoded fields stay within the ranges of
    their types: battery level and moisture within 0..255 (they are not cut
    off at 100), light and conductivity within 0..65535, and the temperature
    between [float64(-32768)/10] and [float64(32767)/10], never a NaN. *)
Theorem X9_decoded_fields_in_range (fdata sdata : list byte) (rd : Readings) :
  let r := decodeSensorData sdata (decodeFirmwareData fdata rd) in
  0 <= BatteryLevel r <= 255
  /\ 0 <= Moisture r <= 255
  /\ 0 <= Light r <= 65535
  /\ 0 <= Conductivity r <= 65535
  /\ PrimFloat.leb temperature_min (Temperature r) = true
  /\ PrimFloat.leb (Temperature r) temperature_max = true.
Proof.
  intros r. subst r. rewrite decodeSensorData_eq, decodeFirmwareData_eq.
  cbn [BatteryLevel Moisture Light Conductivity Temperature].
  assert (H8 : forall i (d : list byte), 0 <= default 0 (u8_at i d) <= 255).
  { intros i d. unfold u8_at. destruct (d !! i) as [b|]; cbn; [|lia].
    pose proof (byte_val_range b). lia. }
  assert (H16 : forall i (d : list byte), 0 <= default 0 (u16le_at i d) <= 65535).
  { intros i d. unfold u16le_at.
    destruct (d !! i) as [lo|]; [|cbn; lia].
    destruct (d !! S i) as [hi|]; [|cbn; lia].
    cbn. pose proof (u16le_range lo hi). lia. }
  split; [apply H8|]. split; [apply H8|]. split; [apply H16|]. split; [apply H16|].
  unfold i16le_at.
  destruct (sdata !! 0%nat) as [lo|]; [|split; vm_compute; reflexivity].
  destruct (sdata !! 1%nat) as [hi|]; [|split; vm_compute; reflexivity].
  pose proof (temperature_of_bounds lo hi) as H.
  apply andb_prop in H. exact H.
Qed.

(** * Further properties: the version gate *)

Lemma first_character_below (c : byte) :
  byte_val c < 50 ->
  Ascii.compare (Ascii.ascii_of_byte Byte.x32) (Ascii.ascii_of_byte c) = Gt.
Proof.
  assert (H : forall c,
    (if byte_val c <? 50
     then match Ascii.compare (Ascii.ascii_of_byte Byte.x32) (Ascii.ascii_of_byte c) with
          | Gt => true
          | _ => false
          end
     else true) = true).
  { apply forall_byte. vm_compute. reflexivity. }
  intros Hc. specialize (H c).
  destruct (Z.ltb_spec (byte_val c) 50); [|lia].
  destruct (Ascii.compare _ _); [discriminate|discriminate|reflexivity].
Qed.

(** X10: the gate compares the version text byte by byte. A firmware payload
    whose text is "2.6.6" followed by any further byte, a trailing NUL
    included, counts as later than 2.6.6; a text whose first character is
    below '2', such as "10.0.1", and the empty text of a payload of at most
    two bytes do not. *)
Theorem X10_version_gate_is_bytewise (b0 b1 c : byte) (more : list byte)
    (rd : Readings) :
  more <> [] -> byte_val c < 50 ->
  string_gt
    (FirmwareVersion
       (decodeFirmwareData
          (b0 :: b1 :: [Byte.x32; Byte.x2e; Byte.x36; Byte.x2e; Byte.x36] ++ more) rd))
    "2.6.6" = true
  /\ string_gt (FirmwareVersion (decodeFirmwareData (b0 :: b1 :: c :: more) rd))
       "2.6.6" = false
  /\ string_gt (FirmwareVersion (decodeFirmwareData [b0; b1] rd)) "2.6.6" = false.
Proof.
  intros Hmore Hc. rewrite !decodeFirmwareData_eq.
  cbn [FirmwareVersion skipn app]. split; [|split].
  - destruct more as [|m more]; [congruence|]. reflexivity.
  - unfold string_gt, String.ltb.
    change (String.string_of_list_byte (c :: more))
      with (String (Ascii.ascii_of_byte c) (String.string_of_list_byte more)).
    cbn [String.compare].
    match goal with
    | |- context [Ascii.compare ?a ?b] =>
        change (Ascii.compare a b)
          with (Ascii.compare (Ascii.ascii_of_byte Byte.x32) (Ascii.ascii_of_byte c))
    end.
    now rewrite first_character_below.
  - reflexivity.
Qed.

Lemma X10_version_gate_is_bytewise_witness :
  string_gt
    (FirmwareVersion
       (decodeFirmwareData
          (Byte.x40 :: Byte.x00 :: [Byte.x32; Byte.x2e; Byte.x36; Byte.x2e; Byte.x36]
             ++ [Byte.x00]) Readings_zero))
    "2.6.6" = true
  /\ string_gt
       (FirmwareVersion
          (decodeFirmwareData (Byte.x40 :: Byte.x00 :: Byte.x31 :: [Byte.x00]) Readings_zero))
       "2.6.6" = false
  /\ string_gt (FirmwareVersion (decodeFirmwareData [Byte.x40; Byte.x00] Readings_zero))
       "2.6.6" = false.
Proof.
  apply (X10_version_gate_is_bytewise Byte.x40 Byte.x00 Byte.x31 [Byte.x00]
           Readings_zero).
  - discriminate.
  - vm_compute. reflexivity.
Defined.

(** * Further properties: discovery *)

Lemma onPeripheralDiscovered_peripherals {St : Type} (confMap : gmap string Config)
    (logger : LoggerEntry) (roster : list (Device St)) (p : Peripheral St) :
  map peripheral (onPeripheralDiscovered confMap logger roster p)
    = map peripheral roster ++ (if kept confMap p then [p] else [])
  /\ (Forall (fun dev => Logger dev !! fldDevice = Some (GetID dev)) roster ->
      Forall (fun dev => Logger dev !! fldDevice = Some (GetID dev))
        (onPeripheralDiscovered confMap logger roster p)).
Proof.
  unfold onPeripheralDiscovered, kept.
  destruct (floraDeviceNames !! Name p); [|now rewrite app_nil_r].
  destruct (confMap !! ID p) as [conf|].
  - destruct (Ignore conf); cbn [negb]; [now rewrite app_nil_r|].
    split.
    + rewrite map_app. destruct (String.eqb (Alias conf) ""); reflexivity.
    + intros H. apply Forall_app. split; [exact H|]. constructor; [|constructor].
      destruct (String.eqb (Alias conf) "");
        unfold GetID, WithField, fldDevice, fldAlias, LoggerEntry in *;
        cbn [peripheral Logger].
      * apply lookup_insert_eq.
      * rewrite lookup_insert_ne by discriminate. apply lookup_insert_eq.
  - split.
    + now rewrite map_app.
    + intros H. apply Forall_app. split; [exact H|]. constructor; [|constructor].
      unfold GetID, WithField. cbn [peripheral Logger]. apply lookup_insert_eq.
Qed.

(** X11: the roster of [Discover] holds, in the order of their
    advertisements, exactly the peripherals with a known name whose
    configuration entry, if there is one, does not say to ignore them; and
    the logger of each device carries its identifier in the field "device". *)
Theorem X11_Discover_is_a_filter {St : Type} (scan : Z -> list (Peripheral St))
    (timeout : Z) (confMap : gmap string Config) (logger : LoggerEntry) :
  map peripheral (fst (Discover None scan timeout confMap logger))
    = List.filter (kept confMap) (scan timeout)
  /\ Forall (fun dev => Logger dev !! fldDevice = Some (GetID dev))
       (fst (Discover None scan timeout confMap logger))
  /\ snd (Discover None scan timeout confMap logger) = None.
Proof.
  unfold Discover. cbn [fst snd]. generalize (scan timeout). intros ps.
  assert (H : forall roster : list (Device St),
    map peripheral (fold_left (onPeripheralDiscovered confMap logger) ps roster)
      = map peripheral roster ++ List.filter (kept confMap) ps
    /\ (Forall (fun dev => Logger dev !! fldDevice = Some (GetID dev)) roster ->
        Forall (fun dev => Logger dev !! fldDevice = Some (GetID dev))
          (fold_left (onPeripheralDiscovered confMap logger) ps roster))).
  { induction ps as [|p ps IH]; intros roster.
    - cbn. now rewrite app_nil_r.
    - cbn [fold_left List.filter].
      destruct (IH (onPeripheralDiscovered confMap logger roster p)) as [E F].
      destruct (onPeripheralDiscovered_peripherals confMap logger roster p) as [E1 F1].
      split.
      + rewrite E, E1, <- app_assoc. destruct (kept confMap p); reflexivity.
      + intros Hr. apply F, F1, Hr. }
  destruct (H []) as [E F]. split; [exact E|]. split; [|reflexivity].
  apply F. constructor.
Qed.

(** * Further properties: sessions and the polling loop *)

Lemma selectCharacteristic_match (h : Handles) (c : Characteristic) :
  handles_match h -> handles_match (selectCharacteristic h c).
Proof.
  intros (Hf & Hr & Ht). unfold selectCharacteristic, handles_match.
  destruct (Z.eqb_spec (VHandle c) vHandleRealtimeData);
    [cbn; repeat split; auto; intros ? [= <-]; assumption|].
  destruct (Z.eqb_spec (VHandle c) vHandleSensorReadings);
    [cbn; repeat split; auto; intros ? [= <-]; assumption|].
  destruct (Z.eqb_spec (VHandle c) vHandleFirmwareAndBattery);
    [cbn; repeat split; auto; intros ? [= <-]; assumption|].
  repeat split; assumption.
Qed.

Lemma fold_selectCharacteristic_match (cs : list Characteristic) (h : Handles) :
  handles_match h -> handles_match (fold_left selectCharacteristic cs h).
Proof.
  revert h. induction cs as [|c cs IH]; intros h H; [exact H|].
  cbn [fold_left]. apply IH. now apply selectCharacteristic_match.
Qed.

Lemma discoverLoop_discipline {St : Type} (p : Peripheral St)
    (services : list Service) (h : Handles) (s : St) (made : list Call) :
  handles_match h -> Forall addresses_sensor made ->
  Forall addresses_sensor (snd (snd (discoverLoop p services h (s, made))))
  /\ forall h', fst (discoverLoop p services h (s, made)) = inl h' -> handles_match h'.
Proof.
  revert h s made. induction services as [|service rest IH]; intros h s made Hh Hm.
  - cbn. split; [exact Hm|]. now intros h' [= <-].
  - cbn [discoverLoop].
    destruct (String.eqb_spec (UUID service) floraServiceUUID) as [Hu|_].
    + unfold mbind, Session_bind, callDiscoverCharacteristics.
      destruct (DiscoverCharacteristics p service s) as [[cs|msg] s1].
      * apply IH; [now apply fold_selectCharacteristic_match|].
        apply Forall_app. split; [exact Hm|]. constructor; [exact Hu|constructor].
      * cbn. split; [|discriminate].
        apply Forall_app. split; [exact Hm|]. constructor; [exact Hu|constructor].
    + now apply IH.
Qed.

Lemma enableRealtime_discipline {St : Type} (p : Peripheral St) (h : Handles)
    (rd : Readings) (s : St) (made : list Call) :
  handles_match h -> Forall addresses_sensor made ->
  Forall addresses_sensor (snd (snd (enableRealtime p h rd (s, made)))).
Proof.
  intros (_ & _ & Ht) Hm. unfold enableRealtime.
  destruct (string_gt (FirmwareVersion rd) "2.6.6"); [|exact Hm].
  destruct (cRealtimeData h) as [c|] eqn:Hc; [|exact Hm].
  unfold mbind, Session_bind, callWriteCharacteristic.
  destruct (WriteCharacteristic p c realtimeCommand false s) as [[msg|] s1]; cbn;
    (apply Forall_app; split; [exact Hm|]; constructor; [|constructor]);
    (split; [now apply Ht|split; reflexivity]).
Qed.

Lemma handles_match_none : handles_match noHandles.
Proof. repeat split; discriminate. Qed.

Lemma onPeripheralConnected_discipline {St : Type} (p : Peripheral St) (s0 : St) :
  Forall addresses_sensor (snd (snd (onPeripheralConnected p (s0, [])))).
Proof.
  unfold onPeripheralConnected.
  unfold mbind at 1. unfold Session_bind at 1. unfold callDiscoverServices.
  destruct (DiscoverServices p s0) as [[services|msg] s1]; cbn [app];
    [|repeat constructor].
  unfold mbind at 1. unfold Session_bind at 1.
  destruct (discoverLoop_discipline p services noHandles s1 [CallDiscoverServices]
              handles_match_none) as [Hm Hh]; [repeat constructor|].
  destruct (discoverLoop p services noHandles (s1, [CallDiscoverServices]))
    as [[h|e] [s2 made]]; cbn [fst snd] in *; [|exact Hm].
  specialize (Hh h eq_refl).
  destruct (cFirmware h) as [cF|] eqn:HcF; [|exact Hm].
  unfold mbind at 1. unfold Session_bind at 1. unfold callReadCharacteristic.
  destruct (ReadCharacteristic p cF s2) as [[data|msg] s3].
  2:{ cbn. apply Forall_app. split; [exact Hm|].
      constructor; [|constructor]. now apply Hh. }
  assert (Hm' : Forall addresses_sensor (made ++ [CallReadCharacteristic cF (Ok data)])).
  { apply Forall_app. split; [exact Hm|]. constructor; [|constructor]. now apply Hh. }
  unfold mbind at 1. unfold Session_bind at 1.
  pose proof (enableRealtime_discipline p h (decodeFirmwareData data Readings_zero)
                s3 _ Hh Hm') as Hg.
  destruct (enableRealtime p h (decodeFirmwareData data Readings_zero)
              (s3, made ++ [CallReadCharacteristic cF (Ok data)]))
    as [[[]|e] [s4 made4]]; cbn [fst snd] in *; [|exact Hg].
  destruct (cReadings h) as [cR|] eqn:HcR; [|exact Hg].
  unfold mbind, Session_bind, callReadLongCharacteristic.
  destruct (ReadLongCharacteristic p cR s4) as [[sdata|msg] s5]; cbn;
    (apply Forall_app; split; [exact Hg|]; constructor; [|constructor]);
    now apply Hh.
Qed.

(** X12: a session addresses nothing but the sensor service: it discovers
    characteristics only of services with the sensor service's UUID, reads
    with [ReadCharacteristic] only the handle 0x38, with
    [ReadLongCharacteristic] only the handle 0x35, and writes only the
    two-byte command, with response, to the handle 0x33. *)
Theorem X12_session_addresses_only_the_sensor_handles {St : Type}
    (dev : Device St) (s : St) (f : Fetched St) :
  FetchReadings dev s = Some f -> Forall addresses_sensor (calls f).
Proof.
  unfold FetchReadings.
  destruct (Connect (peripheral dev) s) as [s0|]; [|discriminate].
  pose proof (onPeripheralConnected_discipline (peripheral dev) s0) as H.
  destruct (onPeripheralConnected (peripheral dev) (s0, [])) as [r [s1 made]].
  cbn [snd] in H. intros [= <-].
  assert (Forall addresses_sensor (made ++ [CallCancelConnection]))
    by (apply Forall_app; split; [exact H|repeat constructor]).
  destruct r; assumption.
Qed.

Lemma X12_session_addresses_only_the_sensor_handles_witness :
  Forall addresses_sensor (calls fetched_318).
Proof.
  exact (X12_session_addresses_only_the_sensor_handles dev_318 tt fetched_318 eq_refl).
Defined.

Lemma onPeripheralConnected_after_services {St : Type} (p : Peripheral St)
    (s0 s1 : St) (services : list Service) :
  DiscoverServices p s0 = (Ok services, s1) ->
  fst (onPeripheralConnected p (s0, [])) <> inr None.
Proof.
  intros Hs. unfold onPeripheralConnected.
  unfold mbind at 1. unfold Session_bind at 1. unfold callDiscoverServices.
  rewrite Hs. cbn [app].
  unfold mbind at 1. unfold Session_bind at 1.
  destruct (discoverLoop_spec p services noHandles s1 [CallDiscoverServices])
    as (disc & r & s2 & E & _ & Herr).
  rewrite E. clear E.
  destruct r as [h|e].
  2:{ destruct (Herr e eq_refl) as [msg ->]. discriminate. }
  destruct (cFirmware h) as [cF|]; [|discriminate].
  unfold mbind at 1. unfold Session_bind at 1. unfold callReadCharacteristic.
  destruct (ReadCharacteristic p cF s2) as [[data|msg] s3]; [|discriminate].
  unfold mbind at 1. unfold Session_bind at 1.
  destruct (enableRealtime_spec p h (decodeFirmwareData data Readings_zero) s3
              ([CallDiscoverServices] ++ disc ++ [CallReadCharacteristic cF (Ok data)]))
    as (w & g & s4 & E & Hg).
  rewrite <- app_assoc in E. cbn [app] in E |- *. rewrite E. clear E.
  destruct g as [[]|[e|]]; [|discriminate|contradiction].
  destruct (cReadings h) as [cR|]; [|discriminate].
  unfold mbind, Session_bind, callReadLongCharacteristic.
  destruct (ReadLongCharacteristic p cR s4) as [[sdata|msg] s5]; discriminate.
Qed.

(** X13: [FetchReadings] returns neither readings nor an error exactly when
    the discovery of services fails: on that path the handler returns without
    setting the error. On every other path that yields no readings it
    returns an error. *)
Theorem X13_no_readings_and_no_error {St : Type} (dev : Device St) (s s0 : St)
    (f : Fetched St) :
  FetchReadings dev s = Some f -> Connect (peripheral dev) s = Some s0 ->
  (out f = None /\ errOut f = None)
  <-> exists msg s1, DiscoverServices (peripheral dev) s0 = (Err msg, s1).
Proof.
  unfold FetchReadings. intros H Hc. rewrite Hc in H.
  destruct (DiscoverServices (peripheral dev) s0) as [[services|msg] s1] eqn:Hs.
  - pose proof (onPeripheralConnected_after_services _ _ _ _ Hs) as Hr.
    destruct (onPeripheralConnected (peripheral dev) (s0, [])) as [r [s2 made]].
    cbn [fst] in Hr. injection H as <-. split.
    + intros [Ho He]. destruct r as [rd|[e|]]; cbn in *; congruence.
    + intros (msg & s' & [=]).
  - unfold onPeripheralConnected in H.
    unfold mbind at 1 in H. unfold Session_bind at 1 in H.
    unfold callDiscoverServices in H. rewrite Hs in H. cbn in H.
    injection H as <-. split; [eauto|]. intros _. split; reflexivity.
Qed.

Lemma X13_no_readings_and_no_error_witness :
  (out (mkFetched None None tt [CallDiscoverServices; CallCancelConnection]) = None
   /\ errOut (mkFetched None None tt [CallDiscoverServices; CallCancelConnection])
      = (None : option error))
  <-> exists msg s1, DiscoverServices (peripheral dev_no_services) tt = (Err msg, s1).
Proof.
  exact (X13_no_readings_and_no_error dev_no_services tt tt
           (mkFetched None None tt [CallDiscoverServices; CallCancelConnection])
           eq_refl eq_refl).
Defined.

Lemma pollLoop_rounds {St : Type} (devices : list (Device St)) (n : nat)
    (rest : list Fired) (s : St) :
  (forall d s0, In d devices -> is_Some (Connect (peripheral d) s0)) ->
  length (fst (fst (pollLoop devices (replicate n TickTimerFired
                                        ++ ReloadTimerFired :: rest) s))) = S n
  /\ Forall (fun evs => polled_ids evs = map GetID devices)
       (fst (fst (pollLoop devices (replicate n TickTimerFired
                                      ++ ReloadTimerFired :: rest) s)))
  /\ snd (fst (pollLoop devices (replicate n TickTimerFired
                                   ++ ReloadTimerFired :: rest) s))
     = Some ErrChanClosed
  /\ is_Some (snd (pollLoop devices (replicate n TickTimerFired
                                       ++ ReloadTimerFired :: rest) s)).
Proof.
  intros Hconn. revert s. induction n as [|n IH]; intros s.
  - cbn [replicate app pollLoop].
    destruct (pollTick_returns devices s Hconn) as [s' Hs'].
    destruct (pollTick devices s) as [evs r] eqn:E. cbn [snd] in Hs'. subst r.
    cbn. repeat split; eauto.
    constructor; [|constructor]. exact (pollTick_polls_all _ _ _ _ E).
  - cbn [replicate app pollLoop].
    destruct (pollTick_returns devices s Hconn) as [s' Hs'].
    destruct (pollTick devices s) as [evs r] eqn:E. cbn [snd] in Hs'. subst r.
    destruct (IH s') as (Hl & Hf & Hc & Ha).
    destruct (pollLoop devices (replicate n TickTimerFired ++ ReloadTimerFired :: rest) s')
      as [[rounds c] a].
    cbn [fst snd length] in *. repeat split; auto.
    constructor; [|exact Hf]. exact (pollTick_polls_all _ _ _ _ E).
Qed.

(** X14: after a successful discovery, when every peripheral of the roster
    connects, [discoverAndRun] polls the whole roster once at once and once
    more for each tick of the ticker, every round in the order of the roster,
    until the reload timer fires; it then closes the error channel and has
    sent nothing on it. After a failed discovery it polls nothing and sends
    the error. *)
Theorem X14_discoverAndRun_rounds {St : Type} (devices : list (Device St))
    (n : nat) (rest : list Fired) (s : St) (err : error) :
  (forall d s0, In d devices -> is_Some (Connect (peripheral d) s0)) ->
  let run := discoverAndRun (devices, None)
               (replicate n TickTimerFired ++ ReloadTimerFired :: rest) s in
  length (fst (fst run)) = S n
  /\ Forall (fun evs => polled_ids evs = map GetID devices) (fst (fst run))
  /\ snd (fst run) = Some ErrChanClosed
  /\ is_Some (snd run)
  /\ discoverAndRun (devices, Some err)
       (replicate n TickTimerFired ++ ReloadTimerFired :: rest) s
     = ([], Some (ErrSent err), Some s).
Proof.
  intros Hconn run. subst run. unfold discoverAndRun. cbn [fst snd].
  destruct (pollLoop_rounds devices n rest s Hconn) as (H1 & H2 & H3 & H4).
  repeat split; assumption.
Qed.

Lemma X14_discoverAndRun_rounds_witness :
  length (fst (fst (discoverAndRun ([dev_fixture; dev_318_no_switch], None)
                      (replicate 2 TickTimerFired ++ [ReloadTimerFired]) tt))) = 3%nat
  /\ snd (fst (discoverAndRun ([dev_fixture; dev_318_no_switch], None)
                 (replicate 2 TickTimerFired ++ [ReloadTimerFired]) tt))
     = Some ErrChanClosed.
Proof.
  assert (Hconn : forall (d : Device unit) (s0 : unit),
             In d [dev_fixture; dev_318_no_switch] ->
             is_Some (Connect (peripheral d) s0)).
  { intros d s0 [<-|[<-|[]]]; cbn; eauto. }
  destruct (X14_discoverAndRun_rounds [dev_fixture; dev_318_no_switch] 2 [] tt
              RealtimeSwitchNotFound Hconn) as (H1 & _ & H3 & _).
  split; [exact H1|exact H3].
Defined.
